(** * Confluence freshness checker: a shallow embedding

    This development embeds [engineering_health_check/confluence_checker.py]
    in Rocq and proves properties of its configuration loader, session
    factory, page paginator and freshness analyzer.

    Python objects decoded from JSON or YAML are values of the type [value];
    exceptions are the constructors of [exn] and a computation that may raise
    is in the [result] monad.  The HTTP server is a script of responses the
    paginator consumes one per request. *)

From Stdlib Require Import ZArith List String Ascii Bool Lia.
From Stdlib Require Import Floats.SpecFloat.
Import ListNotations.
Open Scope string_scope.
Open Scope Z_scope.

(** ** Exceptions and the error monad *)

Inductive exn : Type :=
| AttributeError
| TypeError
| ValueError
| OverflowError
| ZeroDivisionError
| OSError
| YAMLError
| HTTPError
| RequestException.

Inductive result (A : Type) : Type :=
| Ok (a : A)
| Raise (e : exn).

Arguments Ok {A} a.
Arguments Raise {A} e.

Definition bind {A B : Type} (m : result A) (k : A -> result B) : result B :=
  match m with
  | Ok a => k a
  | Raise e => Raise e
  end.

Notation "x <- m ;; k" := (bind m (fun x => k))
  (at level 61, m at next level, right associativity).

(** [try: ... except Exception: pass] around an expression: the value when
    there is one, nothing when anything was raised. *)
Definition try_except {A : Type} (m : result A) : option A :=
  match m with
  | Ok a => Some a
  | Raise _ => None
  end.

(** ** Python values *)

(** IEEE binary64, the format of a Python [float]. *)
Definition prec : Z := 53.
Definition emax : Z := 1024.

(** What [resp.json()] and [yaml.safe_load] build: [None], booleans,
    integers, floats, strings, lists and dictionaries with string keys.  A
    dictionary is an association list in insertion order; lookup takes the
    first binding of a key. *)
#[warnings="-register-all"]
Inductive value : Type :=
| VNone
| VBool (b : bool)
| VInt (n : Z)
| VFloat (f : spec_float)
| VStr (s : string)
| VList (l : list value)
| VDict (d : list (string * value)).

Definition dict : Type := list (string * value).

(** Truth value of an object, as [if x:], [not x] and [x or y] test it. *)
Definition truthy (v : value) : bool :=
  match v with
  | VNone => false
  | VBool b => b
  | VInt n => negb (n =? 0)
  | VFloat (S754_zero _) => false
  | VFloat _ => true
  | VStr s => negb (String.length s =? 0)%nat
  | VList l => negb (List.length l =? 0)%nat
  | VDict d => negb (List.length d =? 0)%nat
  end.

(** [x or y] *)
Definition py_or (x y : value) : value :=
  if truthy x then x else y.

(** [x is None] *)
Definition is_None (v : value) : bool :=
  match v with
  | VNone => true
  | _ => false
  end.

Fixpoint lookup (k : string) (d : dict) : option value :=
  match d with
  | [] => None
  | (k', v) :: d' => if String.eqb k k' then Some v else lookup k d'
  end.

(** [d.get(k, default)] on a dictionary. *)
Definition dict_get (d : dict) (k : string) (default : value) : value :=
  match lookup k d with
  | Some v => v
  | None => default
  end.

(** [obj.get(k, default)]: only a dictionary has a [get] attribute. *)
Definition py_get (obj : value) (k : string) (default : value) : result value :=
  match obj with
  | VDict d => Ok (dict_get d k default)
  | _ => Raise AttributeError
  end.

(** The keys of a dictionary, each once, in insertion order. *)
Fixpoint dict_keys (d : dict) : list string :=
  match d with
  | [] => []
  | (k, _) :: d' =>
      k :: filter (fun k' => negb (String.eqb k' k)) (dict_keys d')
  end.

(** The one-character strings of a string. *)
Fixpoint str_chars (s : string) : list string :=
  match s with
  | EmptyString => []
  | String c s' => String c EmptyString :: str_chars s'
  end.

(** [for item in obj]: the items in order, or [TypeError] when the object is
    not iterable. *)
Definition py_iter (obj : value) : result (list value) :=
  match obj with
  | VList l => Ok l
  | VDict d => Ok (map VStr (dict_keys d))
  | VStr s => Ok (map VStr (str_chars s))
  | _ => Raise TypeError
  end.

(** [len(obj)] *)
Definition py_len (obj : value) : result Z :=
  match obj with
  | VList l => Ok (Z.of_nat (List.length l))
  | VDict d => Ok (Z.of_nat (List.length (dict_keys d)))
  | VStr s => Ok (Z.of_nat (String.length s))
  | _ => Raise TypeError
  end.

(** *** Numbers *)

(** [float(n)] for an integer [n]: rounded to nearest even, [OverflowError]
    beyond the range of a double. *)
Definition float_of_int (n : Z) : result spec_float :=
  match binary_normalize prec emax n 0 false with
  | S754_infinity _ => Raise OverflowError
  | f => Ok f
  end.

Definition int_of_bool (b : bool) : Z := if b then 1 else 0.

(** [x + y], as far as the paginator's offset needs it: integers (booleans
    are integers), floats and their mixtures; anything else has no [+] with a
    number. *)
Definition py_add (x y : value) : result value :=
  let num (v : value) : option (Z + spec_float) :=
    match v with
    | VInt n => Some (inl n)
    | VBool b => Some (inl (int_of_bool b))
    | VFloat f => Some (inr f)
    | _ => None
    end in
  match num x, num y with
  | Some (inl a), Some (inl b) => Ok (VInt (a + b))
  | Some (inl a), Some (inr g) =>
      f <- float_of_int a ;; Ok (VFloat (SFadd prec emax f g))
  | Some (inr f), Some (inl b) =>
      g <- float_of_int b ;; Ok (VFloat (SFadd prec emax f g))
  | Some (inr f), Some (inr g) => Ok (VFloat (SFadd prec emax f g))
  | _, _ => Raise TypeError
  end.

(** [a / b] on integers: the correctly rounded quotient as a float. *)
Definition exact_float (n : Z) : spec_float :=
  match n with
  | Z0 => S754_zero false
  | Zpos p => S754_finite false p 0
  | Zneg p => S754_finite true p 0
  end.

Definition int_truediv (a b : Z) : result spec_float :=
  if b =? 0 then Raise ZeroDivisionError
  else
    match SFdiv prec emax (exact_float a) (exact_float b) with
    | S754_infinity _ => Raise OverflowError
    | q => Ok q
    end.

(** The literal [100.0]. *)
Definition hundred : spec_float := binary_normalize prec emax 100 0 false.

(** *** Strings *)

(** [s.rstrip(c)] for a one-character [c]. *)
Fixpoint rstrip (c : ascii) (s : string) : string :=
  match s with
  | EmptyString => EmptyString
  | String a s' =>
      match rstrip c s' with
      | EmptyString => if Ascii.eqb a c then EmptyString else String a EmptyString
      | r => String a r
      end
  end.

(** [s.replace(old, new)] for a non-empty [old]: the occurrences of [old]
    are found left to right and do not overlap; [skip] counts the characters
    of an occurrence still to be dropped. *)
Fixpoint replace_from (old new : string) (skip : nat) (s : string) : string :=
  match s with
  | EmptyString => EmptyString
  | String a s' =>
      match skip with
      | S k => replace_from old new k s'
      | O =>
          if String.prefix old s
          then new ++ replace_from old new (String.length old - 1) s'
          else String a (replace_from old new O s')
      end
  end.

Definition str_replace (old new s : string) : string :=
  replace_from old new O s.

(** [obj.replace(old, new)]: of the decoded values only a string has a
    [replace] attribute. *)
Definition py_replace (obj : value) (old new : string) : result string :=
  match obj with
  | VStr s => Ok (str_replace old new s)
  | _ => Raise AttributeError
  end.

(** [os.path.join(dir, name)] for a relative [name]. *)
Definition ends_with_slash (s : string) : bool :=
  match String.get (String.length s - 1) s with
  | Some c => Ascii.eqb c "/"%char
  | None => false
  end.

Definition os_path_join (dir name : string) : string :=
  if (String.length dir =? 0)%nat || ends_with_slash dir
  then dir ++ name
  else dir ++ "/" ++ name.

(** ** Dates and durations *)

(** A [datetime.timedelta] is its number of microseconds.  A
    [datetime.datetime] is the reading of its wall clock, in microseconds
    since 0001-01-01T00:00:00, with the UTC offset of its [tzinfo] in
    microseconds when it has one. *)
Definition timedelta : Type := Z.

Record datetime : Type := mkDatetime {
  wall : Z;
  tzinfo : option timedelta
}.

Definition us_per_second : Z := 1000000.
Definition us_per_day : Z := 86400 * us_per_second.

(** [datetime.timedelta(days=d)]: the magnitude of the days is at most
    999999999. *)
Definition timedelta_days (d : Z) : result timedelta :=
  if Z.abs d <=? 999999999 then Ok (d * us_per_day) else Raise OverflowError.

(** [datetime.timezone.utc] *)
Definition utc : timedelta := 0.

(** [datetime.datetime.now(datetime.timezone.utc)] when the clock reads
    [clock] microseconds since 0001-01-01T00:00:00 UTC. *)
Definition datetime_now (clock : Z) : datetime :=
  {| wall := clock; tzinfo := Some utc |}.

(** [dt.replace(tzinfo=tz)]: the wall clock is kept. *)
Definition replace_tzinfo (dt : datetime) (tz : timedelta) : datetime :=
  {| wall := wall dt; tzinfo := Some tz |}.

(** [a - b]: the difference of the wall clocks between two naive operands,
    of the instants between two aware ones; mixing them is a [TypeError]. *)
Definition datetime_sub (a b : datetime) : result timedelta :=
  match tzinfo a, tzinfo b with
  | None, None => Ok (wall a - wall b)
  | Some oa, Some ob => Ok (wall a - wall b + ob - oa)
  | _, _ => Raise TypeError
  end.

(** The instant of an aware [datetime], in microseconds since
    0001-01-01T00:00:00 UTC; a naive one is read as UTC. *)
Definition instant (dt : datetime) : Z :=
  match tzinfo dt with
  | Some o => wall dt - o
  | None => wall dt
  end.

(** ** Configuration and session *)

(** What [load_config] finds at a path: nothing, a file it cannot open, or
    a file on which [yaml.safe_load] raises or returns a document. *)
Inductive file : Type :=
| Missing
| Unreadable
| Malformed
| Document (doc : value).

Definition filesystem : Type := string -> file.

(** The path [load_config] reads: the one given, or [config.yml] next to
    the module. *)
Definition config_path (module_dir : string) (path : option string) : string :=
  match path with
  | None => os_path_join module_dir "config.yml"
  | Some p => p
  end.

(** [load_config(path)], in a module whose directory is [module_dir]. *)
Definition load_config (fs : filesystem) (module_dir : string)
    (path : option string) : result value :=
  let path := config_path module_dir path in
  match fs path with
  | Missing => Ok (VDict [])
  | Unreadable => Raise OSError
  | Malformed => Raise YAMLError
  | Document doc => Ok (py_or doc (VDict []))
  end.

(** A [requests.Session], reduced to its [auth] attribute. *)
Record Session : Type := mkSession {
  auth : option (value * value)
}.

(** [requests.Session()]: a fresh session has [auth = None]. *)
Definition new_session : Session := {| auth := None |}.

(** [make_session(config)] *)
Definition make_session (config : value) : result Session :=
  username <- py_get config "username" VNone ;;
  api_token <- py_get config "api_token" VNone ;;
  Ok {| auth := Some (username, api_token) |}.

(** ** The page paginator *)

(** One call of [session.get(api, params=params, timeout=30)]. *)
Record request : Type := mkRequest {
  req_session : Session;
  req_url : string;
  req_params : dict;
  req_timeout : Z
}.

(** What the three lines [session.get], [raise_for_status] and [resp.json]
    give for a request: an exception, or the decoded body. *)
Inductive response : Type :=
| Fails (e : exn)
| Json (data : value).

(** What an observer of the generator sees, in order: a request going out
    and an item being yielded. *)
Inductive event : Type :=
| Get (r : request)
| Yield (item : value).

(** How the run of the generator over a script of responses ends: the loop
    was left by [break], an exception was raised, or the last request of
    the trace is still waiting for a response the script does not have. *)
Inductive status : Type :=
| Exhausted
| Raised (e : exn)
| Awaiting.

(** The query parameters of the request at offset [start]. *)
Definition page_params (space_key : option string) (limit : Z)
    (start : value) : dict :=
  let space :=
    match space_key with
    | Some k =>
        if (String.length k =? 0)%nat then [] else [("spaceKey", VStr k)]
    | None => []
    end in
  ([("type", VStr "page"); ("limit", VInt limit); ("start", start);
    ("expand", VStr "version")] ++ space)%list.

(** [data.get("results") or data.get("page") or data.get("values")],
    followed by the [if results is None] fallback. *)
Definition extract_results (data : value) : result value :=
  r <- py_get data "results" VNone ;;
  rp <- (if truthy r then Ok r else py_get data "page" VNone) ;;
  results <- (if truthy rp then Ok rp else py_get data "values" VNone) ;;
  if is_None results then py_get data "results" (VList []) else Ok results.

(** The loop body after the [for item in results] loop: [None] is [break],
    [Some start'] goes round the loop with the new offset. *)
Definition next_start (limit : Z) (start data results : value)
    : result (option value) :=
  size <- py_get data "size" VNone ;;
  step <- (if is_None size then
             if negb (truthy results) then Ok None
             else n <- py_len results ;;
                  s <- py_add start (VInt n) ;; Ok (Some s)
           else s <- py_add start size ;; Ok (Some s)) ;;
  match step with
  | None => Ok None
  | Some start' =>
      links <- py_get data "_links" (VDict []) ;;
      next <- py_get links "next" VNone ;;
      if negb (truthy next) then
        small <- (if negb (truthy results) then Ok true
                  else n <- py_len results ;; Ok (n <? limit)) ;;
        if small then Ok None else Ok (Some start')
      else Ok (Some start')
  end.

(** The loop body on a decoded body: the items it yields, then how it goes
    on. *)
Definition page_body (limit : Z) (start data : value)
    : list value * result (option value) :=
  match extract_results data with
  | Raise e => ([], Raise e)
  | Ok results =>
      match py_iter results with
      | Raise e => ([], Raise e)
      | Ok items => (items, next_start limit start data results)
      end
  end.

(** The [while True] loop from offset [start] against a script of
    responses. *)
Fixpoint paginate (session : Session) (api : string)
    (space_key : option string) (limit : Z) (start : value)
    (script : list response) : list event * status :=
  let get := Get {| req_session := session; req_url := api;
                    req_params := page_params space_key limit start;
                    req_timeout := 30 |} in
  match script with
  | [] => ([get], Awaiting)
  | Fails e :: _ => ([get], Raised e)
  | Json data :: script' =>
      let '(items, k) := page_body limit start data in
      match k with
      | Raise e => (get :: map Yield items, Raised e)
      | Ok None => (get :: map Yield items, Exhausted)
      | Ok (Some start') =>
          let '(evs, st) :=
            paginate session api space_key limit start' script' in
          (get :: (map Yield items ++ evs)%list, st)
      end
  end.

(** [iterate_pages(session, base_url, space_key, limit)] *)
Definition iterate_pages (session : Session) (base_url : string)
    (space_key : option string) (limit : Z) (script : list response)
    : list event * status :=
  let api := rstrip "/" base_url ++ "/rest/api/content" in
  paginate session api space_key limit (VInt 0) script.

(** The requests of a trace and the items it yields. *)
Fixpoint requests_of (evs : list event) : list request :=
  match evs with
  | [] => []
  | Get r :: evs' => r :: requests_of evs'
  | Yield _ :: evs' => requests_of evs'
  end.

Fixpoint items_of (evs : list event) : list value :=
  match evs with
  | [] => []
  | Get _ :: evs' => items_of evs'
  | Yield item :: evs' => item :: items_of evs'
  end.

(** ** The freshness analyzer *)

(** The mapping [analyze] returns. *)
Record summary : Type := mkSummary {
  total : Z;
  stale : Z;
  percent_stale : spec_float
}.

(** How a call of [analyze] over a script of responses ends. *)
Inductive outcome : Type :=
| Returns (s : summary)
| Raises (e : exn)
| Blocks.

(** [(stale / total * 100.0) if total else 0.0] *)
Definition percent (stale total : Z) : result spec_float :=
  if negb (total =? 0) then
    q <- int_truediv stale total ;; Ok (SFmul prec emax q hundred)
  else Ok (S754_zero false).

Section Analyzer.

(** [datetime.datetime.fromisoformat], which the standard library
    provides: a [datetime], or [ValueError] on a string it rejects. *)
Variable fromisoformat : string -> result datetime.

(** [get_last_modified(item)] *)
Definition get_last_modified (item : value) : result (option datetime) :=
  v <- py_get item "version" VNone ;;
  let version := py_or v (VDict []) in
  when <- py_get version "when" VNone ;;
  if truthy when then
    Ok (try_except (s <- py_replace when "Z" "+00:00" ;; fromisoformat s))
  else Ok None.

(** Whether [lm], once made timezone-aware, is older than [threshold] at
    [now]. *)
Definition older_than (now : datetime) (threshold : timedelta)
    (lm : datetime) : result bool :=
  let lm :=
    match tzinfo lm with
    | None => replace_tzinfo lm utc
    | Some _ => lm
    end in
  age <- datetime_sub now lm ;;
  Ok (age >? threshold).

(** The body of the [for item in iterate_pages(...)] loop on the counters
    [(total, stale)]. *)
Definition count_item (now : datetime) (threshold : timedelta)
    (counters : Z * Z) (item : value) : result (Z * Z) :=
  let '(total, stale) := counters in
  let total := total + 1 in
  lm <- get_last_modified item ;;
  match lm with
  | None => Ok (total, stale + 1)
  | Some lm =>
      old <- older_than now threshold lm ;;
      if old then Ok (total, stale + 1) else Ok (total, stale)
  end.

(** The [for] loop over the events of the generator. *)
Fixpoint consume (now : datetime) (threshold : timedelta)
    (counters : Z * Z) (evs : list event) : result (Z * Z) :=
  match evs with
  | [] => Ok counters
  | Get _ :: evs' => consume now threshold counters evs'
  | Yield item :: evs' =>
      counters' <- count_item now threshold counters item ;;
      consume now threshold counters' evs'
  end.

(** [analyze(session, base_url, space_key, threshold_days, limit)] when
    the clock reads [clock] and the server answers with [script]. *)
Definition analyze (clock : Z) (session : Session) (base_url : string)
    (space_key : option string) (threshold_days : Z) (limit : Z)
    (script : list response) : outcome :=
  let now := datetime_now clock in
  match timedelta_days threshold_days with
  | Raise e => Raises e
  | Ok threshold =>
      let '(evs, st) :=
        iterate_pages session base_url space_key limit script in
      match consume now threshold (0, 0) evs with
      | Raise e => Raises e
      | Ok (total, stale) =>
          match st with
          | Raised e => Raises e
          | Awaiting => Blocks
          | Exhausted =>
              match percent stale total with
              | Raise e => Raises e
              | Ok p =>
                  Returns {| total := total; stale := stale;
                             percent_stale := p |}
              end
          end
      end
  end.

End Analyzer.

(** ** A reader for the common timestamp layout

    [fromisoformat] is a parameter of the analyzer.  The examples below
    instantiate it with a reader for strings laid out as
    [YYYY-MM-DDTHH:MM:SS], an optional fraction of three or six digits and an
    optional offset [+HH:MM] or [-HH:MM], which it reads as the library does;
    it rejects every other string (the library accepts some of them). *)
Module Iso.

Definition digit (c : ascii) : option Z :=
  let n := Z.of_nat (nat_of_ascii c) - 48 in
  if (0 <=? n) && (n <=? 9) then Some n else None.

Fixpoint digits (s : string) (acc : Z) : option Z :=
  match s with
  | EmptyString => Some acc
  | String c s' =>
      match digit c with
      | Some n => digits s' (10 * acc + n)
      | None => None
      end
  end.

(** The number written by the [len] digits of [s] from position [pos]. *)
Definition field (s : string) (pos len : nat) : option Z :=
  let f := String.substring pos len s in
  if (String.length f =? len)%nat then digits f 0 else None.

Definition char_at (s : string) (pos : nat) (c : ascii) : bool :=
  match String.get pos s with
  | Some a => Ascii.eqb a c
  | None => false
  end.

Definition is_leap (y : Z) : bool :=
  (y mod 4 =? 0) && (negb (y mod 100 =? 0) || (y mod 400 =? 0)).

Definition days_in_month (y m : Z) : Z :=
  if m =? 2 then (if is_leap y then 29 else 28)
  else if (m =? 4) || (m =? 6) || (m =? 9) || (m =? 11) then 30
  else 31.

Definition days_before_year (y : Z) : Z :=
  let y := y - 1 in y * 365 + y / 4 - y / 100 + y / 400.

Fixpoint days_before_month (y : Z) (m : nat) : Z :=
  match m with
  | O => 0
  | S k =>
      if (k =? 0)%nat then 0
      else days_before_month y k + days_in_month y (Z.of_nat k)
  end.

(** Microseconds from 0001-01-01T00:00:00 to the given wall clock
    reading. *)
Definition wall_of (y m d hh mm ss us : Z) : Z :=
  let days := days_before_year y + days_before_month y (Z.to_nat m) + (d - 1) in
  ((days * 86400 + hh * 3600 + mm * 60 + ss) * us_per_second) + us.

Definition guard (b : bool) : option unit :=
  if b then Some tt else None.

Definition obind {A B : Type} (m : option A) (k : A -> option B) : option B :=
  match m with
  | Some a => k a
  | None => None
  end.

Notation "x <~ m ;; k" := (obind m (fun x => k))
  (at level 61, m at next level, right associativity).

(** The fraction at the head of [rest] and what follows it. *)
Definition fraction (rest : string) : option (Z * string) :=
  if char_at rest 0 "."%char then
    match field rest 1 6 with
    | Some us => Some (us, String.substring 7 (String.length rest - 7) rest)
    | None =>
        ms <~ field rest 1 3 ;;
        Some (ms * 1000, String.substring 4 (String.length rest - 4) rest)
    end
  else Some (0, rest).

(** The offset [rest] writes, if it writes one. *)
Definition offset (rest : string) : option (option timedelta) :=
  if (String.length rest =? 0)%nat then Some None
  else
    _ <~ guard (String.length rest =? 6)%nat ;;
    sign <~ (if char_at rest 0 "+"%char then Some 1
             else if char_at rest 0 "-"%char then Some (-1) else None) ;;
    hh <~ field rest 1 2 ;;
    _ <~ guard (char_at rest 3 ":"%char) ;;
    mm <~ field rest 4 2 ;;
    _ <~ guard ((hh <? 24) && (mm <? 60)) ;;
    Some (Some (sign * ((hh * 3600 + mm * 60) * us_per_second))).

Definition read (s : string) : option datetime :=
  y <~ field s 0 4 ;;
  _ <~ guard (char_at s 4 "-"%char) ;;
  m <~ field s 5 2 ;;
  _ <~ guard (char_at s 7 "-"%char) ;;
  d <~ field s 8 2 ;;
  _ <~ guard (char_at s 10 "T"%char) ;;
  hh <~ field s 11 2 ;;
  _ <~ guard (char_at s 13 ":"%char) ;;
  mm <~ field s 14 2 ;;
  _ <~ guard (char_at s 16 ":"%char) ;;
  ss <~ field s 17 2 ;;
  _ <~ guard ((1 <=? y) && (1 <=? m) && (m <=? 12) && (1 <=? d)
              && (d <=? days_in_month y m)
              && (hh <? 24) && (mm <? 60) && (ss <? 60)) ;;
  fr <~ fraction (String.substring 19 (String.length s - 19) s) ;;
  let '(us, rest) := fr in
  tz <~ offset rest ;;
  Some {| wall := wall_of y m d hh mm ss us; tzinfo := tz |}.

Definition fromisoformat (s : string) : result datetime :=
  match read s with
  | Some dt => Ok dt
  | None => Raise ValueError
  end.

End Iso.

(** ** The command line *)

From Stdlib Require Import DecimalString.

(** [str(n)] for an integer [n]. *)
Definition str_of_int (n : Z) : string :=
  NilZero.string_of_int (Z.to_int n).

(** The integer nearest to ten times [m * 2 ^ e], the even one of two that
    are equally near. *)
Definition tenths (m : positive) (e : Z) : Z :=
  let n := 10 * Zpos m in
  match e with
  | Zneg p =>
      let d := 2 ^ Zpos p in
      let q := n / d in
      match 2 * (n mod d) ?= d with
      | Lt => q
      | Gt => q + 1
      | Eq => if Z.even q then q else q + 1
      end
  | _ => n * 2 ^ e
  end.

(** [format(x, ".1f")], as the f-string [{x:.1f}] prints a float. *)
Definition format_1f (x : spec_float) : string :=
  let sign (s : bool) : string := if s then "-" else "" in
  match x with
  | S754_nan => "nan"
  | S754_infinity s => sign s ++ "inf"
  | S754_zero s => sign s ++ "0.0"
  | S754_finite s m e =>
      let t := tenths m e in
      sign s ++ str_of_int (t / 10) ++ "." ++ str_of_int (t mod 10)
  end.

(** What [parser.parse_args(argv)] returns. *)
Record Namespace : Type := mkNamespace {
  args_config : option string;
  args_base_url : string;
  args_space : option string;
  args_threshold : Z;
  args_limit : Z
}.

(** How a call of [main] ends: it returns, it leaves through
    [sys.exit(code)], an exception escapes it, or it is still waiting for a
    response. *)
Inductive ending : Type :=
| Completed
| SysExit (code : Z)
| Uncaught (e : exn)
| Waiting.

Section Main.

Variable fromisoformat : string -> result datetime.

(** [str(exc)], the text of an exception. *)
Variable str_of_exc : exn -> string.

(** [main(argv)] from the parsed arguments on: the lines printed and how
    the call ends. *)
Definition main (fs : filesystem) (module_dir : string) (clock : Z)
    (script : list response) (args : Namespace) : list string * ending :=
  match load_config fs module_dir (args_config args) with
  | Raise e => ([], Uncaught e)
  | Ok cfg =>
      match make_session cfg with
      | Raise e => ([], Uncaught e)
      | Ok session =>
          match analyze fromisoformat clock session (args_base_url args)
                  (args_space args) (args_threshold args) (args_limit args)
                  script with
          | Raises HTTPError =>
              (["HTTP error: " ++ str_of_exc HTTPError], SysExit 1)
          | Raises RequestException =>
              (["Network error: " ++ str_of_exc RequestException], SysExit 1)
          | Raises e => ([], Uncaught e)
          | Blocks => ([], Waiting)
          | Returns result =>
              (["Total pages: " ++ str_of_int (total result);
                "Stale pages (>" ++ str_of_int (args_threshold args)
                  ++ " days): " ++ str_of_int (stale result);
                "Percent stale: " ++ format_1f (percent_stale result) ++ "%"],
               Completed)
          end
      end
  end.

End Main.

(** What [parser.parse_args(argv)] does: it returns the arguments it parsed,
    or leaves through [sys.exit(code)] after printing [printed] on standard
    output (a usage error, reported on standard error, or the help text). *)
Inductive parsing : Type :=
| Parsed (args : Namespace)
| ParserExit (code : Z) (printed : list string).

Section CommandLine.

Variable fromisoformat : string -> result datetime.
Variable str_of_exc : exn -> string.

(** [parser.parse_args], which [argparse] provides, on the parser [main]
    builds. *)
Variable parse_args : list string -> parsing.

(** [main(argv)] from its first line: the lines printed on standard output
    and how the call ends. *)
Definition main_argv (fs : filesystem) (module_dir : string) (clock : Z)
    (script : list response) (argv : list string) : list string * ending :=
  match parse_args argv with
  | ParserExit code printed => (printed, SysExit code)
  | Parsed args =>
      main fromisoformat str_of_exc fs module_dir clock script args
  end.

End CommandLine.

(** ** Sample data *)

(** A page record whose version metadata carries the timestamp [when]. *)
Definition record_at (id : Z) (when : string) : value :=
  VDict [("id", VInt id); ("version", VDict [("when", VStr when)])].

(** A response with the records [l], the server-reported size and, when
    [next] holds, a next link. *)
Definition page_of (l : list value) (next : bool) : response :=
  Json (VDict [("results", VList l);
               ("size", VInt (Z.of_nat (List.length l)));
               ("_links",
                VDict (if next then [("next", VStr "/rest/api/content?next")]
                       else []))]).

(** A response with an empty results array, size 0 and a next link. *)
Definition empty_page_with_next : response := page_of [] true.

(** Three responses to requests of page size 2: two full pages with a next
    link, then one record and no next link.  The records were last modified
    on 2024-01-01; two timestamps are written with [Z], one has no offset,
    one is in another zone and one is not a timestamp. *)
Definition three_pages : list response :=
  [page_of [record_at 1 "2024-01-01T00:00:00Z";
            record_at 2 "2024-01-01T08:30:00.000Z"] true;
   page_of [record_at 3 "2024-01-01T12:00:00";
            record_at 4 "2024-01-01T23:00:00+02:00"] true;
   page_of [record_at 5 "yesterday"] false].

(** The clock at 2024-07-19T00:00:00 UTC, 200 days after 2024-01-01. *)
Definition clock_200_days_later : Z :=
  Iso.wall_of 2024 1 1 0 0 0 0 + 200 * us_per_day.

(** The [start] parameter of a request. *)
Definition req_start (r : request) : value :=
  dict_get (req_params r) "start" VNone.

(** The responses of a server that hands out the record lists [pages] one
    per request, each but the last with a next link. *)
Fixpoint serve (pages : list (list value)) : list response :=
  match pages with
  | [] => []
  | [l] => [page_of l false]
  | l :: rest => page_of l true :: serve rest
  end.

(** A response that carries its records and nothing else: no size, no
    links. *)
Definition plain_page (l : list value) : response :=
  Json (VDict [("results", VList l)]).

(** The offsets at which the lists of [pages] begin, counted from
    [start]. *)
Fixpoint offsets (start : Z) (pages : list (list value)) : list Z :=
  match pages with
  | [] => []
  | l :: rest => start :: offsets (start + Z.of_nat (List.length l)) rest
  end.

(** The characters of a string. *)
Fixpoint chars (s : string) : list ascii :=
  match s with
  | EmptyString => []
  | String c s' => c :: chars s'
  end.

(** [x] is a float from 0.0 to 100.0: positive zero, or a positive
    [m * 2 ^ e] with [m * 2 ^ e <= 100], written over the exponent [e <= 2]
    as [m <= 25 * 2 ^ (2 - e)]. *)
Definition is_percentage (x : spec_float) : Prop :=
  match x with
  | S754_zero false => True
  | S754_finite false m e => e <= 2 /\ Z.pos m <= 25 * 2 ^ (2 - e)
  | _ => False
  end.

(** * Properties *)

(** ** Traces *)

Lemma requests_of_app : forall evs evs',
  requests_of (evs ++ evs') = (requests_of evs ++ requests_of evs')%list.
Proof.
  induction evs as [|[r|item] evs IH]; intros evs'; simpl;
    rewrite ?IH; reflexivity.
Qed.

Lemma items_of_app : forall evs evs',
  items_of (evs ++ evs') = (items_of evs ++ items_of evs')%list.
Proof.
  induction evs as [|[r|item] evs IH]; intros evs'; simpl;
    rewrite ?IH; reflexivity.
Qed.

Lemma requests_of_yields : forall items, requests_of (map Yield items) = [].
Proof. induction items; simpl; auto. Qed.

Lemma items_of_yields : forall items, items_of (map Yield items) = items.
Proof. induction items; simpl; congruence. Qed.

(** One unfolding of the loop on a decoded body. *)
Lemma paginate_json : forall session api space_key limit start data script,
  paginate session api space_key limit start (Json data :: script) =
  let get := Get {| req_session := session; req_url := api;
                    req_params := page_params space_key limit start;
                    req_timeout := 30 |} in
  match page_body limit start data with
  | (items, Raise e) => (get :: map Yield items, Raised e)
  | (items, Ok None) => (get :: map Yield items, Exhausted)
  | (items, Ok (Some start')) =>
      (get :: (map Yield items
               ++ fst (paginate session api space_key limit start' script))%list,
       snd (paginate session api space_key limit start' script))
  end.
Proof.
  intros. simpl.
  destruct (page_body limit start data) as [items [[start'|]|e]]; try reflexivity.
  destruct (paginate session api space_key limit start' script); reflexivity.
Qed.

(** The first event of a run is the request at the offset it starts from. *)
Lemma paginate_head : forall session api space_key limit start script,
  exists evs,
    fst (paginate session api space_key limit start script) =
    Get {| req_session := session; req_url := api;
           req_params := page_params space_key limit start;
           req_timeout := 30 |} :: evs.
Proof.
  intros. destruct script as [|[e|data] script].
  - eexists; reflexivity.
  - eexists; reflexivity.
  - rewrite paginate_json.
    destruct (page_body limit start data) as [items [[start'|]|e]];
      eexists; reflexivity.
Qed.

(** [len] counts what [for item in] yields. *)
Lemma py_len_iter : forall results items,
  py_iter results = Ok items ->
  py_len results = Ok (Z.of_nat (List.length items)).
Proof.
  intros results items H. destruct results; simpl in *; try discriminate;
    inversion H; subst; clear H.
  - f_equal. f_equal. rewrite length_map.
    induction s as [|c s IH]; simpl; auto.
  - reflexivity.
  - rewrite length_map. reflexivity.
Qed.

(** ** The paginator *)

(** An empty results array ends the run when the body reports no size,
    whatever its links say. *)
Lemma next_start_empty_without_size : forall limit start d results,
  dict_get d "size" VNone = VNone ->
  truthy results = false ->
  next_start limit start (VDict d) results = Ok None.
Proof.
  intros limit start d results Hsize Hres.
  unfold next_start. simpl. rewrite Hsize. simpl. rewrite Hres. reflexivity.
Qed.

(** So a run stops at a body that reports no size and whose results array
    is empty, next link or not: no request follows it. *)
Lemma paginate_stops_on_empty_page_without_size :
  forall session api space_key limit start d script,
    dict_get d "size" VNone = VNone ->
    extract_results (VDict d) = Ok (VList []) ->
    paginate session api space_key limit start (Json (VDict d) :: script)
    = ([Get {| req_session := session; req_url := api;
               req_params := page_params space_key limit start;
               req_timeout := 30 |}], Exhausted).
Proof.
  intros session api space_key limit start d script Hsize Hres.
  rewrite paginate_json. unfold page_body. rewrite Hres. cbn [py_iter].
  rewrite (next_start_empty_without_size limit start d (VList []) Hsize eq_refl).
  reflexivity.
Qed.

(** Three pages of two, two and one records at page size 2, the last one
    without a next link: five records are yielded over three requests at
    offsets 0, 2 and 4, and the run stops. *)
Example three_pages_yield_five_records :
  let '(evs, st) :=
    iterate_pages new_session "https://wiki.example.com/" (Some "ENG") 2
      three_pages in
  st = Exhausted /\
  List.length (items_of evs) = 5%nat /\
  map req_start (requests_of evs) = [VInt 0; VInt 2; VInt 4] /\
  map req_url (requests_of evs)
  = repeat "https://wiki.example.com/rest/api/content" 3.
Proof. cbn. repeat split. Qed.

(** C1, evaluated on the code: against a server whose every response carries
    an empty results array, size 0 and a next link, the paginator does not
    stop at the empty array.  After [n] such responses it has yielded
    nothing, has issued [n + 1] requests, each at offset 0, and is waiting
    for the response to the last one. *)
Theorem iterate_pages_empty_page_with_next_goes_on :
  forall session base_url space_key limit n,
    let '(evs, st) :=
      iterate_pages session base_url space_key limit
        (repeat empty_page_with_next n) in
    st = Awaiting /\
    items_of evs = [] /\
    List.length (requests_of evs) = S n /\
    Forall (fun r => req_start r = VInt 0) (requests_of evs).
Proof.
  intros session base_url space_key limit n. unfold iterate_pages.
  generalize (rstrip "/" base_url ++ "/rest/api/content") as api. intros api.
  induction n as [|n IH].
  - simpl. repeat split. repeat constructor.
  - cbn [repeat]. unfold empty_page_with_next at 1. unfold page_of.
    rewrite paginate_json. cbn.
    destruct (paginate session api space_key limit (VInt 0)
                (repeat empty_page_with_next n)) as [evs st].
    destruct IH as (Hst & Hitems & Hlen & Hall).
    cbn. repeat split; auto.
Qed.

(** C4, as stated, fails: with ["results"] present and empty, the paginator
    goes on to ["page"] and takes its value. *)
Lemma extract_results_empty_results_falls_through :
  let body := [("results", VList []); ("page", VList [VInt 1])] in
  lookup "results" body = Some (VList []) /\
  extract_results (VDict body) = Ok (VList [VInt 1]) /\
  extract_results (VDict body) <> Ok (VList []).
Proof. cbn. repeat split. discriminate. Qed.

(** C4, amended: the results are the value of the first field among
    ["results"], ["page"] and ["values"] whose value is truthy, and later
    fields do not matter then.  A field that is absent or holds a falsy
    value (null, an empty array) passes on to the next; when none is truthy
    the value of ["values"] is taken unless it is absent or null, and then
    that of ["results"], or the empty list when ["results"] is absent. *)
Theorem extract_results_first_truthy : forall d : dict,
  let r := dict_get d "results" VNone in
  let p := dict_get d "page" VNone in
  let v := dict_get d "values" VNone in
  (truthy r = true -> extract_results (VDict d) = Ok r) /\
  (truthy r = false -> truthy p = true -> extract_results (VDict d) = Ok p) /\
  (truthy r = false -> truthy p = false -> v <> VNone ->
   extract_results (VDict d) = Ok v) /\
  (truthy r = false -> truthy p = false -> v = VNone ->
   extract_results (VDict d) = Ok (dict_get d "results" (VList []))).
Proof.
  intros d r p v. unfold extract_results. cbn [py_get bind].
  fold r p v. repeat split.
  - intros Hr. rewrite Hr. cbn [bind]. rewrite Hr. cbn [bind].
    destruct r; try discriminate; reflexivity.
  - intros Hr Hp. rewrite Hr. cbn [bind]. rewrite Hp. cbn [bind].
    destruct p; try discriminate; reflexivity.
  - intros Hr Hp Hv. rewrite Hr. cbn [bind]. rewrite Hp. cbn [bind].
    destruct v; try congruence; reflexivity.
  - intros Hr Hp Hv. rewrite Hr. cbn [bind]. rewrite Hp. cbn [bind].
    rewrite Hv. reflexivity.
Qed.

Lemma extract_results_first_truthy_witness :
  extract_results
    (VDict [("results", VList [VInt 1]); ("page", VList [VInt 2])])
  = Ok (VList [VInt 1]) /\
  extract_results
    (VDict [("results", VNone); ("page", VList [VInt 2]);
            ("values", VList [VInt 3])])
  = Ok (VList [VInt 2]) /\
  extract_results (VDict [("size", VInt 0); ("values", VList [])])
  = Ok (VList []) /\
  extract_results (VDict [("results", VInt 0); ("size", VInt 0)])
  = Ok (VInt 0).
Proof.
  split; [|split; [|split]].
  - exact (proj1
             (extract_results_first_truthy
                [("results", VList [VInt 1]); ("page", VList [VInt 2])])
             eq_refl).
  - exact (proj1 (proj2
             (extract_results_first_truthy
                [("results", VNone); ("page", VList [VInt 2]);
                 ("values", VList [VInt 3])]))
             eq_refl eq_refl).
  - refine (proj1 (proj2 (proj2
             (extract_results_first_truthy
                [("size", VInt 0); ("values", VList [])])))
             eq_refl eq_refl _).
    discriminate.
  - exact (proj2 (proj2 (proj2
             (extract_results_first_truthy
                [("results", VInt 0); ("size", VInt 0)])))
             eq_refl eq_refl eq_refl).
Defined.

(** Case analysis on the tests and calls of the loop body in [H]. *)
Ltac case_loop H :=
  repeat first
    [ discriminate H
    | progress cbn [bind negb is_None] in H
    | match type of H with
      | context [truthy ?v] => destruct (truthy v) eqn:?
      | context [?a <? ?b] => destruct (a <? b) eqn:?
      | context [bind (py_add ?a ?b) _] => destruct (py_add a b) eqn:?
      | context [bind (py_get ?a ?b ?c) _] => destruct (py_get a b c) eqn:?
      end ].

(** A body on which the loop goes round is a dictionary whose results are
    iterable, and the next offset is the sum the body prescribes. *)
Lemma page_body_next : forall limit start data items start',
  page_body limit start data = (items, Ok (Some start')) ->
  exists d results,
    data = VDict d /\
    extract_results data = Ok results /\
    py_iter results = Ok items /\
    match dict_get d "size" VNone with
    | VNone => py_add start (VInt (Z.of_nat (List.length items))) = Ok start'
    | size => py_add start size = Ok start'
    end.
Proof.
  intros limit start data items start' H. unfold page_body in H.
  destruct data as [| | | | | |d];
    try (cbn in H; discriminate).
  destruct (extract_results (VDict d)) as [results|e]; [|discriminate].
  destruct (py_iter results) as [items'|e] eqn:Hiter; [|discriminate].
  inversion H as [[Hitems Hnext]]. subst items'. clear H.
  exists d, results. repeat split; auto.
  apply py_len_iter in Hiter.
  unfold next_start in Hnext. cbn [py_get bind] in Hnext.
  destruct (dict_get d "size" VNone) as [|b|n|f|s|l|d'] eqn:Hsize;
    cbn [is_None] in Hnext.
  all: rewrite Hiter in Hnext; case_loop Hnext; congruence.
Qed.



(** On integer offsets: a reported integer size is added to the offset. *)
Lemma offset_advances_by_int_size : forall limit s d n items start',
  dict_get d "size" VNone = VInt n ->
  page_body limit (VInt s) (VDict d) = (items, Ok (Some start')) ->
  start' = VInt (s + n).
Proof.
  intros limit s d n items start' Hsize Hbody.
  destruct (page_body_next _ _ _ _ _ Hbody)
    as (d' & results & Hd & _ & _ & Hadd).
  inversion Hd; subst d'. rewrite Hsize in Hadd. cbn in Hadd. congruence.
Qed.

(** On integer offsets: without a reported size the number of records
    yielded is added to the offset. *)
Lemma offset_advances_by_count : forall limit s d items start',
  dict_get d "size" VNone = VNone ->
  page_body limit (VInt s) (VDict d) = (items, Ok (Some start')) ->
  start' = VInt (s + Z.of_nat (List.length items)).
Proof.
  intros limit s d items start' Hsize Hbody.
  destruct (page_body_next _ _ _ _ _ Hbody)
    as (d' & results & Hd & _ & _ & Hadd).
  inversion Hd; subst d'. rewrite Hsize in Hadd. cbn in Hadd. congruence.
Qed.

(** ** The analyzer *)

(** At a UTC clock the age test compares the distance between the instants
    with the threshold. *)
Lemma older_than_instant : forall clock threshold lm,
  older_than (datetime_now clock) threshold lm
  = Ok (clock - instant lm >? threshold).
Proof.
  intros clock threshold lm. unfold older_than, instant.
  destruct lm as [w [o|]]; cbn; unfold utc; do 2 f_equal; lia.
Qed.

Lemma timedelta_days_ok : forall T threshold,
  timedelta_days T = Ok threshold -> threshold = T * us_per_day.
Proof.
  intros T threshold H. unfold timedelta_days in H.
  destruct (Z.abs T <=? 999999999); congruence.
Qed.

(** C2: for every threshold of [T] days, a record whose timestamp parses is
    stale exactly when the time from its instant to now is strictly more
    than [T] days.  At exactly [T] days, and one second short of it, the
    record is counted and not stale; one second beyond, it is stale. *)
Theorem stale_iff_strictly_older :
  forall fromisoformat clock T threshold item lm total stale,
    timedelta_days T = Ok threshold ->
    get_last_modified fromisoformat item = Ok (Some lm) ->
    let counted :=
      count_item fromisoformat (datetime_now clock) threshold
        (total, stale) item in
    counted = Ok (total + 1,
                  if clock - instant lm >? T * us_per_day
                  then stale + 1 else stale) /\
    (instant lm = clock - T * us_per_day ->
     counted = Ok (total + 1, stale)) /\
    (instant lm = clock - T * us_per_day + us_per_second ->
     counted = Ok (total + 1, stale)) /\
    (instant lm = clock - T * us_per_day - us_per_second ->
     counted = Ok (total + 1, stale + 1)).
Proof.
  intros fromisoformat clock T threshold item lm total stale Hth Hlm counted.
  apply timedelta_days_ok in Hth. subst threshold.
  assert (Hc : counted = Ok (total + 1,
                             if clock - instant lm >? T * us_per_day
                             then stale + 1 else stale)).
  { subst counted. unfold count_item. rewrite Hlm. cbn [bind].
    rewrite older_than_instant. cbn [bind].
    destruct (clock - instant lm >? T * us_per_day); reflexivity. }
  split; [exact Hc|].
  unfold us_per_second in *.
  repeat split; intros Hi; rewrite Hc.
  - replace (clock - instant lm) with (T * us_per_day) by lia.
    rewrite Z.gtb_ltb, Z.ltb_irrefl. reflexivity.
  - replace (clock - instant lm >? T * us_per_day) with false; [reflexivity|].
    symmetry. rewrite Z.gtb_ltb. apply Z.ltb_ge. lia.
  - replace (clock - instant lm >? T * us_per_day) with true; [reflexivity|].
    symmetry. rewrite Z.gtb_ltb. apply Z.ltb_lt. lia.
Qed.

Lemma stale_iff_strictly_older_witness :
  let clock := Iso.wall_of 2024 1 1 0 0 0 0 + 90 * us_per_day in
  let now := datetime_now clock in
  let threshold := 90 * us_per_day in
  count_item Iso.fromisoformat now threshold (0, 0)
    (record_at 1 "2024-01-01T00:00:00Z") = Ok (1, 0) /\
  count_item Iso.fromisoformat now threshold (0, 0)
    (record_at 2 "2024-01-01T00:00:01Z") = Ok (1, 0) /\
  count_item Iso.fromisoformat now threshold (0, 0)
    (record_at 3 "2023-12-31T23:59:59Z") = Ok (1, 1).
Proof.
  intros clock now threshold. split; [|split].
  - refine (proj1 (proj2
      (stale_iff_strictly_older Iso.fromisoformat clock 90 threshold
         (record_at 1 "2024-01-01T00:00:00Z")
         {| wall := Iso.wall_of 2024 1 1 0 0 0 0; tzinfo := Some 0 |} 0 0
         _ _)) _); reflexivity.
  - refine (proj1 (proj2 (proj2
      (stale_iff_strictly_older Iso.fromisoformat clock 90 threshold
         (record_at 2 "2024-01-01T00:00:01Z")
         {| wall := Iso.wall_of 2024 1 1 0 0 1 0; tzinfo := Some 0 |} 0 0
         _ _))) _); reflexivity.
  - refine (proj2 (proj2 (proj2
      (stale_iff_strictly_older Iso.fromisoformat clock 90 threshold
         (record_at 3 "2023-12-31T23:59:59Z")
         {| wall := Iso.wall_of 2023 12 31 23 59 59 0; tzinfo := Some 0 |} 0 0
         _ _))) _); reflexivity.
Defined.

(** C3, as stated, fails: a record whose ["version"] is a number carries no
    timestamp, and counting it raises [AttributeError], which ends the scan
    without a summary. *)
Lemma record_with_version_number_ends_scan :
  let item := VDict [("id", VInt 1); ("version", VInt 7)] in
  count_item Iso.fromisoformat (datetime_now clock_200_days_later)
    (90 * us_per_day) (0, 0) item = Raise AttributeError /\
  analyze Iso.fromisoformat clock_200_days_later new_session
    "https://wiki.example.com" None 90 50 [page_of [item] false]
  = Raises AttributeError.
Proof. split; reflexivity. Qed.

(** C3, amended: a record dictionary whose ["version"] is absent, null or
    otherwise falsy, or is a dictionary whose ["when"] is absent, null or
    otherwise falsy, is not a string, or is a string the parser rejects, is
    counted once and as stale, for every threshold; counting it raises
    nothing. *)
Theorem record_without_readable_timestamp_is_stale :
  forall fromisoformat now threshold d total stale,
    let version := dict_get d "version" VNone in
    (truthy version = false \/
     exists v, version = VDict v /\
       let when := dict_get v "when" VNone in
       (truthy when = false \/
        (forall w, when <> VStr w) \/
        exists w e, when = VStr w /\
          fromisoformat (str_replace "Z" "+00:00" w) = Raise e)) ->
    count_item fromisoformat now threshold (total, stale) (VDict d)
    = Ok (total + 1, stale + 1).
Proof.
  intros fromisoformat now threshold d total stale version H.
  assert (Hlm : get_last_modified fromisoformat (VDict d) = Ok None).
  { unfold get_last_modified. cbn [py_get bind]. fold version.
    destruct H as [Hv | (v & Hv & Hw)].
    - unfold py_or. rewrite Hv. reflexivity.
    - rewrite Hv.
      assert (Hget : py_get (py_or (VDict v) (VDict [])) "when" VNone
                     = Ok (dict_get v "when" VNone)).
      { destruct v as [|b v]; reflexivity. }
      rewrite Hget. cbn [bind]. cbv zeta in Hw.
      destruct Hw as [Hw | [Hw | (w & e & Hw & Hparse)]].
      + rewrite Hw. reflexivity.
      + destruct (truthy (dict_get v "when" VNone)); [|reflexivity].
        destruct (dict_get v "when" VNone) as [| | | |w| |];
          try reflexivity.
        exfalso. apply (Hw w). reflexivity.
      + rewrite Hw. destruct (truthy (VStr w)); [|reflexivity].
        cbn [py_replace bind]. rewrite Hparse. reflexivity. }
  unfold count_item. rewrite Hlm. reflexivity.
Qed.

Lemma record_without_readable_timestamp_is_stale_witness :
  let now := datetime_now clock_200_days_later in
  let threshold := 90 * us_per_day in
  count_item Iso.fromisoformat now threshold (4, 4)
    (record_at 5 "yesterday") = Ok (5, 5) /\
  count_item Iso.fromisoformat now threshold (0, 0)
    (VDict [("id", VInt 1); ("version", VBool false)]) = Ok (1, 1) /\
  count_item Iso.fromisoformat now threshold (0, 0)
    (VDict [("version", VDict [("when", VInt 1700000000)])]) = Ok (1, 1) /\
  count_item Iso.fromisoformat now threshold (0, 0)
    (VDict [("version", VDict [("when", VStr "")])]) = Ok (1, 1).
Proof.
  intros now threshold. split; [|split; [|split]].
  - apply (record_without_readable_timestamp_is_stale Iso.fromisoformat now
             threshold
             [("id", VInt 5); ("version", VDict [("when", VStr "yesterday")])]
             4 4).
    right. exists [("when", VStr "yesterday")]. split; [reflexivity|].
    right. right. exists "yesterday", ValueError. split; reflexivity.
  - apply (record_without_readable_timestamp_is_stale Iso.fromisoformat now
             threshold [("id", VInt 1); ("version", VBool false)] 0 0).
    left. reflexivity.
  - apply (record_without_readable_timestamp_is_stale Iso.fromisoformat now
             threshold [("version", VDict [("when", VInt 1700000000)])] 0 0).
    right. exists [("when", VInt 1700000000)]. split; [reflexivity|].
    right. left. intros w. discriminate.
  - apply (record_without_readable_timestamp_is_stale Iso.fromisoformat now
             threshold [("version", VDict [("when", VStr "")])] 0 0).
    right. exists [("when", VStr "")]. split; [reflexivity|].
    left. reflexivity.
Defined.

(** Counting a record adds one to the total and at most one to the stale
    count. *)
Lemma count_item_step :
  forall fromisoformat now threshold total stale item total' stale',
    count_item fromisoformat now threshold (total, stale) item
    = Ok (total', stale') ->
    total' = total + 1 /\ (stale' = stale \/ stale' = stale + 1).
Proof.
  intros fromisoformat now threshold total stale item total' stale' H.
  unfold count_item in H.
  destruct (get_last_modified fromisoformat item) as [[lm|]|e];
    cbn [bind] in H; try discriminate.
  - destruct (older_than now threshold lm) as [[|]|e]; cbn [bind] in H;
      try discriminate; inversion H; auto.
  - inversion H; auto.
Qed.

(** The loop keeps the stale count within the number of records seen. *)
Lemma consume_counts :
  forall fromisoformat now threshold evs total stale total' stale',
    consume fromisoformat now threshold (total, stale) evs
    = Ok (total', stale') ->
    total' = total + Z.of_nat (List.length (items_of evs)) /\
    stale <= stale' <= stale + Z.of_nat (List.length (items_of evs)).
Proof.
  intros fromisoformat now threshold.
  induction evs as [|[r|item] evs IH]; intros total stale total' stale' H.
  - cbn in H. inversion H; subst. cbn. lia.
  - cbn [consume items_of] in *. apply IH in H. exact H.
  - cbn [consume items_of] in *.
    destruct (count_item fromisoformat now threshold (total, stale) item)
      as [[t1 s1]|e] eqn:Hitem; cbn [bind] in H; [|discriminate].
    apply count_item_step in Hitem. apply IH in H.
    cbn [List.length]. lia.
Qed.

(** C7: for every threshold and every script of responses, a summary
    [analyze] returns has [0 <= stale <= total], and its total is the number
    of records the paginator yielded; each record adds one to the total and
    at most one to the stale count. *)
Theorem analyze_stale_le_total :
  forall fromisoformat clock session base_url space_key T limit script s,
    analyze fromisoformat clock session base_url space_key T limit script
    = Returns s ->
    0 <= stale s <= total s /\
    total s =
      Z.of_nat (List.length
                  (items_of (fst (iterate_pages session base_url space_key
                                    limit script)))) /\
    (forall now threshold t n item t' n',
        count_item fromisoformat now threshold (t, n) item = Ok (t', n') ->
        t' = t + 1 /\ (n' = n \/ n' = n + 1)).
Proof.
  intros fromisoformat clock session base_url space_key T limit script s H.
  split; [|split].
  3: { intros. eapply count_item_step; eauto. }
  all: unfold analyze in H;
    destruct (timedelta_days T) as [threshold|e]; [|discriminate];
    destruct (iterate_pages session base_url space_key limit script)
      as [evs st];
    destruct (consume fromisoformat (datetime_now clock) threshold (0, 0) evs)
      as [[t n]|e] eqn:Hloop; [|discriminate];
    destruct st; try discriminate;
    destruct (percent n t) as [p|e]; [|discriminate];
    inversion H; subst s; clear H;
    apply consume_counts in Hloop; cbn [fst total stale]; lia.
Qed.

Lemma analyze_stale_le_total_witness :
  let s := {| total := 5; stale := 5; percent_stale := hundred |} in
  analyze Iso.fromisoformat clock_200_days_later new_session
    "https://wiki.example.com/" (Some "ENG") 90 2 three_pages = Returns s /\
  0 <= stale s <= total s /\
  total s =
    Z.of_nat (List.length
                (items_of (fst (iterate_pages new_session
                                  "https://wiki.example.com/" (Some "ENG") 2
                                  three_pages)))).
Proof.
  intros s. split; [reflexivity|].
  pose proof (analyze_stale_le_total Iso.fromisoformat clock_200_days_later
                new_session "https://wiki.example.com/" (Some "ENG") 90 2
                three_pages s eq_refl) as (Hle & Htotal & _).
  exact (conj Hle Htotal).
Defined.

(** With no records the percentage is the literal [0.0]: the division is
    not reached. *)
Lemma percent_of_nothing : forall stale, percent stale 0 = Ok (S754_zero false).
Proof. reflexivity. Qed.

(** C8, as stated, fails for a threshold [datetime.timedelta] rejects: with
    one billion days [analyze] raises [OverflowError], although the
    paginator, run on the same response, stops having yielded nothing. *)
Lemma analyze_huge_threshold_raises :
  iterate_pages new_session "https://wiki.example.com" None 50 [page_of [] false]
  = ([Get {| req_session := new_session;
             req_url := "https://wiki.example.com/rest/api/content";
             req_params := page_params None 50 (VInt 0);
             req_timeout := 30 |}], Exhausted) /\
  analyze Iso.fromisoformat clock_200_days_later new_session
    "https://wiki.example.com" None 1000000000 50 [page_of [] false]
  = Raises OverflowError.
Proof. split; reflexivity. Qed.

(** C8, amended: for every threshold of at most 999999999 days in
    magnitude, when the paginator stops having yielded no record, [analyze]
    returns total 0, stale 0 and [percent_stale = 0.0]; with a zero total
    the percentage is [0.0] without any division. *)
Theorem analyze_no_records_percent_zero :
  forall fromisoformat clock session base_url space_key T limit script evs,
    Z.abs T <= 999999999 ->
    iterate_pages session base_url space_key limit script = (evs, Exhausted) ->
    items_of evs = [] ->
    analyze fromisoformat clock session base_url space_key T limit script
    = Returns {| total := 0; stale := 0; percent_stale := S754_zero false |}
    /\ forall n, percent n 0 = Ok (S754_zero false).
Proof.
  intros fromisoformat clock session base_url space_key T limit script evs
         HT Hrun Hitems.
  split; [|exact percent_of_nothing].
  unfold analyze, timedelta_days.
  apply Z.leb_le in HT. rewrite HT, Hrun.
  assert (Hloop : forall c,
             consume fromisoformat (datetime_now clock) (T * us_per_day) c evs
             = Ok c).
  { clear Hrun. induction evs as [|[r|item] evs IH]; intros c.
    - reflexivity.
    - cbn [consume]. apply IH. exact Hitems.
    - discriminate. }
  rewrite Hloop. reflexivity.
Qed.

Lemma analyze_no_records_percent_zero_witness :
  analyze Iso.fromisoformat clock_200_days_later new_session
    "https://wiki.example.com" None 90 50 [page_of [] false]
  = Returns {| total := 0; stale := 0; percent_stale := S754_zero false |}.
Proof.
  refine (proj1
            (analyze_no_records_percent_zero Iso.fromisoformat
               clock_200_days_later new_session "https://wiki.example.com"
               None 90 50 [page_of [] false] _ _ eq_refl eq_refl)).
  cbn. lia.
Defined.

(** C9, as stated, fails: a record whose ["version"] is a number makes
    [get_last_modified] raise [AttributeError]. *)
Lemma get_last_modified_raises_on_version_number :
  get_last_modified Iso.fromisoformat
    (VDict [("id", VInt 1); ("version", VInt 7)])
  = Raise AttributeError.
Proof. reflexivity. Qed.

(** C9, amended: on a record dictionary whose ["version"] is absent, null or
    otherwise falsy, or a dictionary, [get_last_modified] returns a parsed
    datetime or [None] and raises nothing, whatever the ["when"] field holds:
    [None] unless ["when"] is a string the parser accepts after [Z] is
    replaced. *)
Theorem get_last_modified_total :
  forall fromisoformat d,
    let version := dict_get d "version" VNone in
    (truthy version = false \/ exists v, version = VDict v) ->
    exists r,
      get_last_modified fromisoformat (VDict d) = Ok r /\
      (forall lm, r = Some lm ->
         exists w, dict_get (match version with VDict v => v | _ => [] end)
                     "when" VNone = VStr w /\
                   fromisoformat (str_replace "Z" "+00:00" w) = Ok lm).
Proof.
  intros fromisoformat d version H.
  unfold get_last_modified. cbn [py_get bind]. fold version.
  assert (Hv : py_or version (VDict [])
               = VDict (match version with VDict v => v | _ => [] end)).
  { destruct H as [Hf | (v & Hv)].
    - unfold py_or. rewrite Hf. destruct version; try reflexivity.
      destruct d0; [reflexivity|discriminate].
    - rewrite Hv. destruct v; reflexivity. }
  rewrite Hv. cbn [py_get bind].
  set (when := dict_get _ "when" VNone).
  destruct (truthy when) eqn:Hw.
  - eexists. split; [reflexivity|].
    intros lm Hlm. destruct when; cbn in Hlm; try discriminate.
    exists s. split; [reflexivity|].
    destruct (fromisoformat (str_replace "Z" "+00:00" s)); cbn in Hlm;
      congruence.
  - eexists. split; [reflexivity|]. discriminate.
Qed.

Lemma get_last_modified_total_witness :
  exists r,
    get_last_modified Iso.fromisoformat
      (VDict [("id", VInt 1); ("version", VDict [("when", VInt 20240101)])])
    = Ok r /\
    (forall lm, r = Some lm ->
       exists w, VInt 20240101 = VStr w /\
                 Iso.fromisoformat (str_replace "Z" "+00:00" w) = Ok lm).
Proof.
  apply (get_last_modified_total Iso.fromisoformat
           [("id", VInt 1); ("version", VDict [("when", VInt 20240101)])]).
  right. exists [("when", VInt 20240101)]. reflexivity.
Defined.

(** ** Configuration and session *)

(** Every request of a run is sent through the session the run was given. *)
Lemma paginate_requests_session :
  forall script session api space_key limit start,
    Forall (fun r => req_session r = session)
      (requests_of (fst (paginate session api space_key limit start script))).
Proof.
  induction script as [|[e|data] script IH];
    intros session api space_key limit start.
  - repeat constructor.
  - repeat constructor.
  - rewrite paginate_json.
    destruct (page_body limit start data) as [items [[start'|]|e]];
      cbn [fst requests_of];
      rewrite ?requests_of_app, ?requests_of_yields; cbn [app];
      constructor; auto.
Qed.

(** Whatever the configuration mapping holds, [make_session] assigns a pair
    to [auth]; without the two keys it is the pair of two [None]. *)
Lemma make_session_auth_pair : forall config : dict,
  make_session (VDict config)
  = Ok {| auth := Some (dict_get config "username" VNone,
                        dict_get config "api_token" VNone) |}.
Proof. reflexivity. Qed.

Lemma make_session_missing_keys : forall config : dict,
  lookup "username" config = None ->
  lookup "api_token" config = None ->
  make_session (VDict config) = Ok {| auth := Some (VNone, VNone) |}.
Proof.
  intros config Hu Ht. rewrite make_session_auth_pair.
  unfold dict_get. rewrite Hu, Ht. reflexivity.
Qed.

(** C5, evaluated on the code: with no config file, and so with neither
    [username] nor [api_token], [make_session] still assigns a pair to the
    [auth] of the session, the pair [(None, None)]; the session is not left
    as [requests.Session()] makes it, with [auth = None], and every request
    of a scan goes out through it. *)
Theorem make_session_without_keys_sets_auth :
  forall module_dir path base_url space_key limit script,
    let without_file : filesystem := fun _ => Missing in
    let session := {| auth := Some (VNone, VNone) |} in
    load_config without_file module_dir path = Ok (VDict []) /\
    make_session (VDict []) = Ok session /\
    auth session <> auth new_session /\
    Forall (fun r => auth (req_session r) = Some (VNone, VNone))
      (requests_of
         (fst (iterate_pages session base_url space_key limit script))).
Proof.
  intros module_dir path base_url space_key limit script
         without_file session.
  split; [reflexivity|]. split; [reflexivity|]. split; [discriminate|].
  unfold iterate_pages.
  eapply Forall_impl;
    [|apply (paginate_requests_session script session)].
  intros r Hr. rewrite Hr. reflexivity.
Qed.

(** C10, as stated, fails: a config file whose document is a list makes
    [load_config] return that list, which is not a mapping. *)
Lemma load_config_returns_list_document :
  let fs : filesystem :=
    fun p => if String.eqb p "config.yml"
             then Document (VList [VStr "username"; VStr "api_token"])
             else Missing in
  load_config fs "" None = Ok (VList [VStr "username"; VStr "api_token"]) /\
  forall d, load_config fs "" None <> Ok (VDict d).
Proof. split; [reflexivity | discriminate]. Qed.

(** C10, amended: [load_config] returns the empty mapping when the file is
    absent and when it parses to no data; what it returns is never [None],
    and is a mapping whenever the document is falsy or a mapping.  (A truthy
    document that is not a mapping is returned as it is.) *)
Theorem load_config_empty_or_document :
  forall (fs : filesystem) module_dir path,
    let file := fs (config_path module_dir path) in
    (file = Missing -> load_config fs module_dir path = Ok (VDict [])) /\
    (file = Document VNone -> load_config fs module_dir path = Ok (VDict [])) /\
    (forall config, load_config fs module_dir path = Ok config ->
                    config <> VNone) /\
    (forall doc, file = Document doc ->
                 truthy doc = false \/ (exists d, doc = VDict d) ->
                 exists d, load_config fs module_dir path = Ok (VDict d)).
Proof.
  intros fs module_dir path file. unfold load_config. fold file.
  split; [|split; [|split]].
  - intros ->. reflexivity.
  - intros ->. reflexivity.
  - intros config H. destruct file as [| | |doc]; try discriminate.
    + inversion H. discriminate.
    + inversion H. unfold py_or.
      destruct (truthy doc) eqn:Hdoc; [|discriminate].
      intros ->. discriminate.
  - intros doc -> [Hdoc | (d & ->)].
    + exists []. unfold py_or. rewrite Hdoc. reflexivity.
    + unfold py_or. destruct (truthy (VDict d)); eauto.
Qed.

Lemma load_config_empty_or_document_witness :
  let fs : filesystem :=
    fun p => if String.eqb p "/opt/checker/config.yml" then Document VNone
             else if String.eqb p "/etc/checker.yml"
                  then Document (VDict [("username", VStr "bot")])
                  else Missing in
  load_config fs "/opt/checker" None = Ok (VDict []) /\
  load_config fs "/opt/checker" (Some "/etc/missing.yml") = Ok (VDict []) /\
  exists d, load_config fs "/opt/checker" (Some "/etc/checker.yml")
            = Ok (VDict d).
Proof.
  intros fs. split; [|split].
  - exact (proj1 (proj2
             (load_config_empty_or_document fs "/opt/checker" None)) eq_refl).
  - exact (proj1
             (load_config_empty_or_document fs "/opt/checker"
                (Some "/etc/missing.yml")) eq_refl).
  - refine (proj2 (proj2 (proj2
             (load_config_empty_or_document fs "/opt/checker"
                (Some "/etc/checker.yml")))) _ eq_refl _).
    right. exists [("username", VStr "bot")]. reflexivity.
Defined.

(** * Further properties *)

(** ** The request URL *)

Lemma rstrip_app : forall c s,
  rstrip c (s ++ String c EmptyString) = rstrip c s.
Proof.
  intros c s. induction s as [|a s IH]; cbn [append rstrip].
  - rewrite Ascii.eqb_refl. reflexivity.
  - rewrite IH. reflexivity.
Qed.

(** X1: a trailing slash on [base_url] changes nothing: the run is the
    same, request for request. *)
Theorem iterate_pages_trailing_slash :
  forall session base_url space_key limit script,
    iterate_pages session (base_url ++ "/") space_key limit script
    = iterate_pages session base_url space_key limit script.
Proof.
  intros. unfold iterate_pages. rewrite rstrip_app. reflexivity.
Qed.

(** Every request of a run is built from the arguments of the run and an
    offset. *)
Lemma paginate_requests_shape :
  forall script session api space_key limit start,
    Forall (fun r => exists offset,
                r = {| req_session := session; req_url := api;
                       req_params := page_params space_key limit offset;
                       req_timeout := 30 |})
      (requests_of (fst (paginate session api space_key limit start script))).
Proof.
  induction script as [|[e|data] script IH];
    intros session api space_key limit start.
  - repeat constructor. eexists; reflexivity.
  - repeat constructor. eexists; reflexivity.
  - rewrite paginate_json.
    destruct (page_body limit start data) as [items [[start'|]|e]];
      cbn [fst requests_of];
      rewrite ?requests_of_app, ?requests_of_yields; cbn [app];
      constructor; auto; eexists; reflexivity.
Qed.

(** X2: every request of a run goes to the content endpoint under the base
    URL without its trailing slashes, with a timeout of 30 seconds, asks for
    pages with their version expanded at the page size of the run, and
    names the space exactly when a non-empty space key was given. *)
Theorem iterate_pages_request_parameters :
  forall session base_url space_key limit script,
    Forall (fun r =>
              req_url r = rstrip "/" base_url ++ "/rest/api/content" /\
              req_timeout r = 30 /\
              lookup "type" (req_params r) = Some (VStr "page") /\
              lookup "limit" (req_params r) = Some (VInt limit) /\
              lookup "expand" (req_params r) = Some (VStr "version") /\
              lookup "spaceKey" (req_params r) =
                match space_key with
                | Some k =>
                    if (String.length k =? 0)%nat then None
                    else Some (VStr k)
                | None => None
                end)
      (requests_of
         (fst (iterate_pages session base_url space_key limit script))).
Proof.
  intros session base_url space_key limit script. unfold iterate_pages.
  eapply Forall_impl; [|apply paginate_requests_shape].
  intros r (offset & ->). cbn.
  repeat split.
  destruct space_key as [k|]; [|reflexivity].
  destruct (String.length k =? 0)%nat; reflexivity.
Qed.

(** ** Requests and responses *)

(** X3: a run begins with a request at the offset it starts from, before
    anything is yielded, and issues one request per response it consumes:
    at most one more than the script has responses, and exactly that many
    when, and only when, it ends waiting for a response. *)
Theorem paginate_request_count :
  forall script session api space_key limit start,
    let run := paginate session api space_key limit start script in
    exists r evs,
      fst run = Get r :: evs /\
      req_start r = start /\
      (List.length (requests_of (fst run)) <= S (List.length script))%nat /\
      (snd run = Awaiting <->
       List.length (requests_of (fst run)) = S (List.length script)).
Proof.
  induction script as [|[e|data] script IH];
    intros session api space_key limit start run; subst run.
  - do 2 eexists. cbn. repeat split; auto.
  - do 2 eexists. cbn. repeat split; auto; try lia; discriminate.
  - rewrite paginate_json.
    destruct (page_body limit start data) as [items [[start'|]|e]];
      cbn [fst snd requests_of List.length];
      rewrite ?requests_of_app, ?requests_of_yields; cbn [app List.length].
    + destruct (IH session api space_key limit start')
        as (r & evs & _ & _ & Hle & Hiff).
      do 2 eexists. repeat split; try reflexivity; try lia.
      * intros H. apply Hiff in H. lia.
      * intros H. apply Hiff. lia.
    + do 2 eexists. repeat split; try reflexivity; try lia; discriminate.
    + do 2 eexists. repeat split; try reflexivity; try lia; discriminate.
Qed.

(** X4: responses are consumed in order and none after the run has ended.
    With more responses appended to the script the trace begins as before,
    and when the run did not end waiting it is the same run. *)
Theorem paginate_script_extension :
  forall script extra session api space_key limit start,
    let run := paginate session api space_key limit start script in
    let run' := paginate session api space_key limit start (script ++ extra) in
    (exists evs, fst run' = (fst run ++ evs)%list) /\
    (snd run <> Awaiting -> run' = run).
Proof.
  induction script as [|[e|data] script IH];
    intros extra session api space_key limit start run run';
    subst run run'.
  - cbn [app]. split.
    + destruct (paginate_head session api space_key limit start extra)
        as [evs Hevs].
      exists evs. rewrite Hevs. reflexivity.
    + intros H. exfalso. apply H. reflexivity.
  - cbn. split; [exists []; reflexivity | reflexivity].
  - cbn [app]. rewrite !paginate_json.
    destruct (page_body limit start data) as [items [[start'|]|e]];
      cbn [fst snd].
    + destruct (IH extra session api space_key limit start') as [[evs Hevs] Heq].
      split.
      * exists evs. rewrite Hevs, app_assoc. reflexivity.
      * intros H. rewrite (Heq H). reflexivity.
    + split; [exists []; rewrite app_nil_r; reflexivity | reflexivity].
    + split; [exists []; rewrite app_nil_r; reflexivity | reflexivity].
Qed.

Lemma paginate_script_extension_witness :
  paginate new_session "https://wiki.example.com/rest/api/content" None 2
    (VInt 0) (three_pages ++ [Fails HTTPError])
  = paginate new_session "https://wiki.example.com/rest/api/content" None 2
      (VInt 0) three_pages.
Proof.
  refine (proj2
            (paginate_script_extension three_pages [Fails HTTPError]
               new_session "https://wiki.example.com/rest/api/content" None 2
               (VInt 0)) _).
  cbn. discriminate.
Defined.

(** A failed request ends the loop with the exception of that request. *)
Lemma paginate_stops_at_failure :
  forall script session api space_key limit start k e,
    let run := paginate session api space_key limit start script in
    nth_error script k = Some (Fails e) ->
    (List.length (requests_of (fst run)) <= S k)%nat /\
    (List.length (requests_of (fst run)) = S k -> snd run = Raised e).
Proof.
  induction script as [|[e0|data] script IH];
    intros session api space_key limit start k e run Hk; subst run.
  - destruct k; discriminate.
  - destruct k as [|k]; cbn [nth_error] in Hk.
    + inversion Hk; subst. cbn. split; [lia | reflexivity].
    + cbn. split; [lia | intros H; lia].
  - destruct k as [|k]; cbn [nth_error] in Hk; [discriminate|].
    rewrite paginate_json.
    destruct (page_body limit start data) as [items [[start'|]|e1]];
      cbn [fst snd requests_of List.length];
      rewrite ?requests_of_app, ?requests_of_yields; cbn [app List.length].
    + destruct (IH session api space_key limit start' k e Hk) as [Hle Hst].
      split; [lia | intros H; apply Hst; lia].
    + split; [lia | intros H; lia].
    + split; [lia | intros H; lia].
Qed.

(** X5: a failed request ends the run with the exception of that request:
    no request follows the one that failed, and a run that issued it ends
    raising its exception. *)
Theorem iterate_pages_failure_ends_run :
  forall script session base_url space_key limit k e,
    let run := iterate_pages session base_url space_key limit script in
    nth_error script k = Some (Fails e) ->
    (List.length (requests_of (fst run)) <= S k)%nat /\
    (List.length (requests_of (fst run)) = S k -> snd run = Raised e).
Proof.
  intros script session base_url space_key limit k e run Hk. subst run.
  unfold iterate_pages.
  exact (paginate_stops_at_failure script session _ space_key limit (VInt 0)
           k e Hk).
Qed.

Lemma iterate_pages_failure_ends_run_witness :
  snd (iterate_pages new_session "https://wiki.example.com" None 2
         [page_of [record_at 1 "2024-01-01T00:00:00Z"] true;
          Fails HTTPError; page_of [] false])
  = Raised HTTPError.
Proof.
  refine (proj2
            (iterate_pages_failure_ends_run
               [page_of [record_at 1 "2024-01-01T00:00:00Z"] true;
                Fails HTTPError; page_of [] false]
               new_session "https://wiki.example.com" None 2 1 HTTPError
               eq_refl) eq_refl).
Defined.

(** ** A server that pages through its records *)

(** The loop body on a page that reports its records, their number and a
    next link: the records are yielded and the offset moves past them. *)
Lemma page_body_with_next : forall limit s l,
  page_body limit (VInt s)
    (VDict [("results", VList l);
            ("size", VInt (Z.of_nat (List.length l)));
            ("_links", VDict [("next", VStr "/rest/api/content?next")])])
  = (l, Ok (Some (VInt (s + Z.of_nat (List.length l))))).
Proof.
  intros limit s l. destruct l as [|item l]; reflexivity.
Qed.

(** The loop body on a last page, shorter than the page size and without a
    next link: the records are yielded and the loop is left. *)
Lemma page_body_last : forall limit s l,
  Z.of_nat (List.length l) < limit ->
  page_body limit (VInt s)
    (VDict [("results", VList l);
            ("size", VInt (Z.of_nat (List.length l)));
            ("_links", VDict [])])
  = (l, Ok None).
Proof.
  intros limit s l Hlen. destruct l as [|item l]; [reflexivity|].
  unfold page_body. cbn [extract_results py_get bind dict_get lookup
                          String.eqb Ascii.eqb Bool.eqb truthy negb
                          List.length Nat.eqb is_None py_iter].
  unfold next_start.
  cbn [py_get bind dict_get lookup String.eqb Ascii.eqb Bool.eqb truthy negb
       List.length Nat.eqb is_None py_len py_add].
  apply Z.ltb_lt in Hlen. cbn [List.length] in Hlen. rewrite Hlen.
  reflexivity.
Qed.

(** X6: against a server that hands out its records page by page, each page
    but the last with a next link and the last one shorter than the page
    size, the paginator yields every record exactly once and in order,
    issues one request per page at the offsets where the pages begin, and
    stops. *)
Theorem iterate_pages_yields_all_records :
  forall pages session base_url space_key limit,
    pages <> [] ->
    Z.of_nat (List.length (last pages [])) < limit ->
    let run :=
      iterate_pages session base_url space_key limit (serve pages) in
    snd run = Exhausted /\
    items_of (fst run) = List.concat pages /\
    map req_start (requests_of (fst run)) = map VInt (offsets 0 pages).
Proof.
  intros pages session base_url space_key limit Hne Hlast run. subst run.
  unfold iterate_pages.
  generalize (rstrip "/" base_url ++ "/rest/api/content") as api.
  generalize 0 as s. revert Hne Hlast.
  induction pages as [|l pages IH]; intros Hne Hlast s api;
    [congruence|].
  destruct pages as [|l' pages].
  - change (serve [l]) with [page_of l false]. unfold page_of.
    rewrite paginate_json.
    cbn [last] in Hlast. rewrite (page_body_last limit s l Hlast).
    cbn [fst snd requests_of items_of List.concat offsets map].
    rewrite requests_of_yields, items_of_yields, app_nil_r.
    repeat split.
  - change (serve (l :: l' :: pages))
      with (page_of l true :: serve (l' :: pages)).
    unfold page_of. rewrite paginate_json, page_body_with_next.
    cbn [fst snd requests_of items_of].
    rewrite requests_of_app, items_of_app, requests_of_yields,
      items_of_yields.
    destruct (IH ltac:(discriminate) Hlast
                 (s + Z.of_nat (List.length l)) api) as (Hst & Hitems & Hreq).
    cbn [app]. repeat split.
    + exact Hst.
    + rewrite Hitems. reflexivity.
    + cbn [map offsets]. rewrite Hreq. reflexivity.
Qed.

Lemma iterate_pages_yields_all_records_witness :
  let pages := [[VInt 1; VInt 2]; []; [VInt 3; VInt 4; VInt 5]; [VInt 6]] in
  let run :=
    iterate_pages new_session "https://wiki.example.com" None 2 (serve pages) in
  snd run = Exhausted /\
  items_of (fst run) = [VInt 1; VInt 2; VInt 3; VInt 4; VInt 5; VInt 6] /\
  map req_start (requests_of (fst run)) = [VInt 0; VInt 2; VInt 2; VInt 5].
Proof.
  intros pages.
  apply (iterate_pages_yields_all_records pages new_session
           "https://wiki.example.com" None 2).
  - discriminate.
  - cbn. lia.
Defined.

(** ** Rounding

    The percentage is computed by [SFdiv] and [SFmul], which round through
    [binary_round_aux]: two right shifts with a rounding of the mantissa in
    between.  The lemmas below bound what it returns. *)

Lemma digits2_pos_size : forall p, digits2_pos p = Pos.size p.
Proof. induction p; simpl; congruence. Qed.

(** A number below [2 ^ k] has at most [k] binary digits. *)
Lemma Zdigits2_le : forall m k, 0 <= m < 2 ^ k -> 0 <= k -> Zdigits2 m <= k.
Proof.
  intros m k [Hm Hlt] Hk. destruct m as [|p|p]; [exact Hk| |lia].
  cbn [Zdigits2]. rewrite digits2_pos_size.
  pose proof (Pos.size_le p) as Hle.
  apply Pos2Z.pos_le_pos in Hle. rewrite Pos2Z.inj_pow in Hle.
  change (Z.pos p~0) with (2 * Z.pos p) in Hle.
  destruct (Z.le_gt_cases (Z.pos (Pos.size p)) k) as [H|H]; [exact H|].
  exfalso.
  assert (Hpow : 2 ^ (k + 1) <= 2 ^ Z.pos (Pos.size p))
    by (apply Z.pow_le_mono_r; lia).
  rewrite Z.pow_add_r in Hpow by lia. lia.
Qed.

Lemma shr_1_m : forall mrs, 0 <= shr_m mrs -> shr_m (shr_1 mrs) = shr_m mrs / 2.
Proof.
  intros [m r s] Hm. cbn [shr_m] in *. unfold shr_1.
  destruct m as [|p|p]; [reflexivity| |lia].
  destruct p as [p|p|]; cbn [shr_m].
  - rewrite Pos2Z.inj_xI. apply Z.div_unique with (r := 1); lia.
  - rewrite Pos2Z.inj_xO. apply Z.div_unique with (r := 0); lia.
  - reflexivity.
Qed.

Lemma iter_shr_1_m : forall p mrs,
  0 <= shr_m mrs ->
  shr_m (iter_pos shr_1 p mrs) = shr_m mrs / 2 ^ Z.pos p.
Proof.
  induction p as [p IH|p IH|]; intros mrs Hm; cbn [iter_pos].
  - assert (H1 : 0 <= shr_m (shr_1 mrs))
      by (rewrite shr_1_m by exact Hm; apply Z.div_pos; lia).
    assert (H2 : 0 <= shr_m (iter_pos shr_1 p (shr_1 mrs)))
      by (rewrite IH by exact H1; apply Z.div_pos; lia).
    rewrite IH by exact H2. rewrite IH by exact H1. rewrite shr_1_m by exact Hm.
    rewrite !Z.div_div by lia. f_equal.
    replace (Z.pos p~1) with (1 + Z.pos p + Z.pos p) by lia.
    rewrite !Z.pow_add_r by lia. change (2 ^ 1) with 2. ring.
  - assert (H1 : 0 <= shr_m (iter_pos shr_1 p mrs))
      by (rewrite IH by exact Hm; apply Z.div_pos; lia).
    rewrite IH by exact H1. rewrite IH by exact Hm.
    rewrite Z.div_div by lia. f_equal.
    replace (Z.pos p~0) with (Z.pos p + Z.pos p) by lia.
    rewrite Z.pow_add_r by lia. ring.
  - rewrite shr_1_m by exact Hm. reflexivity.
Qed.

(** The first component of [shr_fexp]: the mantissa divided by the power of
    two that the exponent gained. *)
Lemma shr_fexp_spec : forall m e l,
  0 <= m ->
  let e' := Z.max e (fexp prec emax (Zdigits2 m + e)) in
  snd (shr_fexp prec emax m e l) = e' /\
  shr_m (fst (shr_fexp prec emax m e l)) = m / 2 ^ (e' - e).
Proof.
  intros m e l Hm e'. subst e'. unfold shr_fexp, shr.
  assert (Hrec : shr_m (shr_record_of_loc m l) = m)
    by (destruct l as [|[| |]]; reflexivity).
  destruct (fexp prec emax (Zdigits2 m + e) - e) as [|p|p] eqn:Hn;
    cbn [fst snd].
  - rewrite Hrec. replace (Z.max e _ - e) with 0 by lia.
    rewrite Z.div_1_r. split; lia.
  - rewrite iter_shr_1_m by lia. rewrite Hrec.
    replace (Z.max e _ - e) with (Z.pos p) by lia. split; lia.
  - rewrite Hrec. replace (Z.max e _ - e) with 0 by lia.
    rewrite Z.div_1_r. split; lia.
Qed.

Lemma fexp_val : forall x, fexp prec emax x = Z.max (x - 53) (-1074).
Proof. reflexivity. Qed.


(** Shifting an exact record by a power of two that divides its mantissa
    leaves it exact. *)
Lemma shr_1_exact : forall mrs,
  0 <= shr_m mrs -> shr_r mrs = false -> shr_s mrs = false ->
  shr_m mrs mod 2 = 0 ->
  shr_r (shr_1 mrs) = false /\ shr_s (shr_1 mrs) = false.
Proof.
  intros [m r s] Hm Hr Hs Hmod. cbn [shr_m shr_r shr_s] in *. subst r s.
  destruct m as [|[p|p|]|p]; cbn; auto; try lia.
  - rewrite Pos2Z.inj_xI in Hmod. exfalso.
    rewrite Z.add_comm, Z.mul_comm, Z.mod_add in Hmod by lia. discriminate.
  - discriminate.
Qed.

Lemma mod_pow2_split : forall m a b,
  0 <= a -> 0 <= b -> m mod 2 ^ (a + b) = 0 ->
  m mod 2 ^ a = 0 /\ (m / 2 ^ a) mod 2 ^ b = 0.
Proof.
  intros m a b Ha Hb Hmod.
  assert (Hpa : 0 < 2 ^ a) by (apply Z.pow_pos_nonneg; lia).
  assert (Hpb : 0 < 2 ^ b) by (apply Z.pow_pos_nonneg; lia).
  apply Z.mod_divide in Hmod; [|rewrite Z.pow_add_r by lia; lia].
  destruct Hmod as [k Hk]. rewrite Z.pow_add_r in Hk by lia.
  split.
  - apply Z.mod_divide; [lia|]. exists (k * 2 ^ b). lia.
  - replace m with (k * 2 ^ b * 2 ^ a) by lia.
    rewrite Z.div_mul by lia. apply Z.mod_mul. lia.
Qed.

Lemma iter_shr_1_exact : forall p mrs,
  0 <= shr_m mrs -> shr_r mrs = false -> shr_s mrs = false ->
  shr_m mrs mod 2 ^ Z.pos p = 0 ->
  shr_r (iter_pos shr_1 p mrs) = false /\
  shr_s (iter_pos shr_1 p mrs) = false.
Proof.
  induction p as [p IH|p IH|]; intros mrs Hm Hr Hs Hmod; cbn [iter_pos].
  - replace (Z.pos p~1) with (1 + (Z.pos p + Z.pos p)) in Hmod by lia.
    apply mod_pow2_split in Hmod; try lia. destruct Hmod as [H1 H2].
    change (2 ^ 1) with 2 in H1, H2.
    destruct (shr_1_exact mrs Hm Hr Hs H1) as [Hr1 Hs1].
    assert (Hm1 : 0 <= shr_m (shr_1 mrs))
      by (rewrite shr_1_m by exact Hm; apply Z.div_pos; lia).
    rewrite <- shr_1_m in H2 by exact Hm.
    apply mod_pow2_split in H2; try lia. destruct H2 as [H2 H3].
    destruct (IH (shr_1 mrs) Hm1 Hr1 Hs1 H2) as [Hr2 Hs2].
    rewrite <- iter_shr_1_m in H3 by exact Hm1.
    apply IH; auto.
    rewrite iter_shr_1_m by exact Hm1. apply Z.div_pos; lia.
  - replace (Z.pos p~0) with (Z.pos p + Z.pos p) in Hmod by lia.
    apply mod_pow2_split in Hmod; try lia. destruct Hmod as [H1 H2].
    destruct (IH mrs Hm Hr Hs H1) as [Hr1 Hs1].
    rewrite <- iter_shr_1_m in H2 by exact Hm.
    apply IH; auto.
    rewrite iter_shr_1_m by exact Hm. apply Z.div_pos; lia.
  - change (2 ^ 1) with 2 in Hmod. apply shr_1_exact; auto.
Qed.

(** The location [shr_fexp] reports is exact when it was so before and the
    bits shifted out are zero. *)
Lemma shr_fexp_exact : forall m e,
  0 <= m ->
  let e' := Z.max e (fexp prec emax (Zdigits2 m + e)) in
  m mod 2 ^ (e' - e) = 0 ->
  loc_of_shr_record (fst (shr_fexp prec emax m e loc_Exact)) = loc_Exact.
Proof.
  intros m e Hm e' Hmod. subst e'. unfold shr_fexp, shr.
  destruct (fexp prec emax (Zdigits2 m + e) - e) as [|p|p] eqn:Hn;
    cbn [fst]; try reflexivity.
  replace (Z.max e _ - e) with (Z.pos p) in Hmod by lia.
  destruct (iter_shr_1_exact p (shr_record_of_loc m loc_Exact))
    as [Hr Hs]; auto.
  destruct (iter_pos shr_1 p (shr_record_of_loc m loc_Exact)) as [m' r s].
  cbn [shr_r shr_s] in *. subst. reflexivity.
Qed.

(** One shift keeps a mantissa that stands for at most [c * 2 ^ g] at most
    so. *)
Lemma shr_fexp_capped : forall m e l c g,
  0 <= m <= c * 2 ^ (g - e) -> e <= g -> -1074 <= g -> 0 < c < 2 ^ 53 ->
  let r := shr_fexp prec emax m e l in
  0 <= shr_m (fst r) <= c * 2 ^ (g - snd r) /\
  e <= snd r <= g /\
  snd r = Z.max e (fexp prec emax (Zdigits2 m + e)) /\
  shr_m (fst r) = m / 2 ^ (snd r - e).
Proof.
  intros m e l c g Hm He Hg Hc r. subst r.
  destruct (shr_fexp_spec m e l (proj1 Hm)) as [He' Hm'].
  rewrite He', Hm'.
  assert (Hpow : 0 < 2 ^ (g - e)) by (apply Z.pow_pos_nonneg; lia).
  assert (Hd : Zdigits2 m <= 53 + (g - e)).
  { apply Zdigits2_le; [|lia]. rewrite Z.pow_add_r by lia. nia. }
  pose proof (fexp_val (Zdigits2 m + e)) as Hf.
  set (e' := Z.max e (fexp prec emax (Zdigits2 m + e))) in *.
  assert (He'g : e <= e' <= g) by lia.
  assert (Hp1 : 0 < 2 ^ (e' - e)) by (apply Z.pow_pos_nonneg; lia).
  repeat split; try lia.
  - apply Z.div_pos; lia.
  - apply Z.div_le_upper_bound; [lia|].
    replace (g - e) with ((e' - e) + (g - e')) in Hm by lia.
    rewrite Z.pow_add_r in Hm by lia. nia.
Qed.

Lemma round_nearest_even_bounds : forall m l,
  m <= round_nearest_even m l <= m + 1.
Proof.
  intros m l. unfold round_nearest_even.
  destruct l as [|[| |]]; try lia. destruct (Z.even m); lia.
Qed.

(** Rounding what stands for at most [c * 2 ^ g], and for less when it is
    inexact, gives zero or a finite float that is at most [c * 2 ^ g]. *)
Lemma binary_round_aux_capped : forall sx mx ex lx c g,
  0 <= mx <= c * 2 ^ (g - ex) ->
  (lx <> loc_Exact -> mx < c * 2 ^ (g - ex)) ->
  ex <= g -> -1074 <= g <= 971 -> 0 < c < 2 ^ 53 ->
  binary_round_aux prec emax sx mx ex lx = S754_zero sx \/
  exists m e,
    binary_round_aux prec emax sx mx ex lx = S754_finite sx m e /\
    e <= g /\ Z.pos m <= c * 2 ^ (g - e).
Proof.
  intros sx mx ex lx c g Hm Hlx He Hg Hc. unfold binary_round_aux.
  pose proof (shr_fexp_capped mx ex lx c g Hm He ltac:(lia) Hc) as H1.
  cbv zeta in H1.
  pose proof (shr_fexp_exact mx ex (proj1 Hm)) as Hex1. cbv zeta in Hex1.
  destruct (shr_fexp prec emax mx ex lx) as [mrs1 e1] eqn:Hshr.
  cbn [fst snd] in H1. destruct H1 as (Hm1 & He1 & He1v & Hm1v).
  set (m2 := round_nearest_even (shr_m mrs1) (loc_of_shr_record mrs1)).
  assert (Hm2 : 0 <= m2 <= c * 2 ^ (g - e1)).
  { pose proof (round_nearest_even_bounds (shr_m mrs1)
                  (loc_of_shr_record mrs1)) as Hr. fold m2 in Hr.
    split; [lia|].
    destruct (Z.eq_dec (shr_m mrs1) (c * 2 ^ (g - e1))) as [Heq|Hne];
      [|lia].
    assert (Hp1 : 0 < 2 ^ (e1 - ex)) by (apply Z.pow_pos_nonneg; lia).
    assert (Hsplit : c * 2 ^ (g - ex) = c * 2 ^ (g - e1) * 2 ^ (e1 - ex)).
    { replace (g - ex) with ((g - e1) + (e1 - ex)) by lia.
      rewrite Z.pow_add_r by lia. ring. }
    assert (Hmx : mx = c * 2 ^ (g - ex)).
    { rewrite Hm1v in Heq.
      pose proof (Z.mul_div_le mx (2 ^ (e1 - ex)) Hp1) as Hle.
      rewrite Heq in Hle. lia. }
    assert (Hl : lx = loc_Exact).
    { destruct lx as [|cmp]; [reflexivity|].
      exfalso. assert (mx < c * 2 ^ (g - ex)) by (apply Hlx; discriminate).
      lia. }
    subst lx. rewrite Hshr in Hex1. cbn [fst] in Hex1.
    subst m2. rewrite Hex1.
    + cbn [round_nearest_even]. lia.
    + rewrite <- He1v, Hmx, Hsplit. apply Z.mod_mul. lia. }
  pose proof (shr_fexp_capped m2 e1 loc_Exact c g Hm2 ltac:(lia) ltac:(lia) Hc)
    as H2. cbv zeta in H2.
  destruct (shr_fexp prec emax m2 e1 loc_Exact) as [mrs2 e2].
  cbn [fst snd] in H2. destruct H2 as (Hm3 & He2 & _ & _).
  destruct (shr_m mrs2) as [|m|m] eqn:Hm3e; [left; reflexivity| |lia].
  right. exists m, e2.
  assert (Hle : e2 <= 971) by lia.
  change (emax - prec) with 971.
  apply Z.leb_le in Hle. rewrite Hle. repeat split; lia.
Qed.

Lemma new_location_exact : forall b r,
  new_location b r <> loc_Exact -> r <> 0.
Proof.
  intros b r H Hr. apply H. subst r. unfold new_location.
  destruct (Z.even b); reflexivity.
Qed.

Lemma SFdiv_core_le : forall a b : positive,
  (a <= b)%positive ->
  let '(q, e, l) := SFdiv_core_binary prec emax (Z.pos a) 0 (Z.pos b) 0 in
  0 <= q <= 1 * 2 ^ (0 - e) /\ (l <> loc_Exact -> q < 1 * 2 ^ (0 - e)) /\
  -1074 <= e <= 0.
Proof.
  intros a b Hab. unfold SFdiv_core_binary.
  rewrite !Z.add_0_r, !Z.sub_0_r.
  pose proof (fexp_val (Zdigits2 (Z.pos a) - Zdigits2 (Z.pos b))) as Hf.
  set (e := Z.min (fexp prec emax (Zdigits2 (Z.pos a) - Zdigits2 (Z.pos b))) 0)
    in *.
  assert (He : -1074 <= e <= 0) by lia.
  set (m := match 0 - e with
            | 0 => Z.pos a
            | Z.pos _ => Z.shiftl (Z.pos a) (0 - e)
            | Z.neg _ => 0
            end).
  assert (Hm : m = Z.pos a * 2 ^ (0 - e)).
  { subst m. destruct (0 - e) as [|p|p] eqn:Hs.
    - lia.
    - rewrite Z.shiftl_mul_pow2 by lia. reflexivity.
    - lia. }
  pose proof (Z_div_mod m (Z.pos b) ltac:(lia)) as Hdiv.
  destruct (Z.div_eucl m (Z.pos b)) as [q r]. destruct Hdiv as [Hq Hr].
  assert (Hpow : 0 < 2 ^ (0 - e)) by (apply Z.pow_pos_nonneg; lia).
  apply Pos2Z.pos_le_pos in Hab.
  split; [split; nia|]. split; [|exact He].
  intros Hl. apply new_location_exact in Hl. nia.
Qed.

Lemma SFdiv_le : forall a b : positive,
  (a <= b)%positive ->
  let q := SFdiv prec emax (exact_float (Z.pos a)) (exact_float (Z.pos b)) in
  q = S754_zero false \/
  exists m e, q = S754_finite false m e /\ e <= 0 /\ Z.pos m <= 2 ^ (- e).
Proof.
  intros a b Hab q. subst q. cbn [exact_float SFdiv xorb].
  pose proof (SFdiv_core_le a b Hab) as Hcore.
  destruct (SFdiv_core_binary prec emax (Z.pos a) 0 (Z.pos b) 0)
    as [[q e] l].
  destruct Hcore as (Hq & Hl & He).
  destruct (binary_round_aux_capped false q e l 1 0 Hq Hl)
    as [Hz | (m & e' & Hf & He' & Hm)]; try lia.
  - left. exact Hz.
  - right. exists m, e'. repeat split; auto.
    replace (- e') with (0 - e') by lia. lia.
Qed.

Lemma SFmul_hundred_le : forall m e,
  e <= 0 -> Z.pos m <= 2 ^ (- e) ->
  let p := SFmul prec emax (S754_finite false m e) hundred in
  p = S754_zero false \/
  exists m' e', p = S754_finite false m' e' /\ e' <= 2 /\
                Z.pos m' <= 25 * 2 ^ (2 - e').
Proof.
  intros m e He Hm p. subst p.
  change hundred with (S754_finite false 7036874417766400 (-46)).
  cbn [SFmul xorb].
  apply binary_round_aux_capped; try lia.
  - rewrite Pos2Z.inj_mul.
    replace (2 - (e + -46)) with (- e + 48) by lia.
    rewrite Z.pow_add_r by lia.
    change 7036874417766400 with (25 * 2 ^ 48).
    assert (0 < 2 ^ 48) by reflexivity. split; [lia|]. nia.
  - intros H. exfalso. apply H. reflexivity.
Qed.

(** ** The percentage *)

(** The quotient of a count by itself is [1.0]. *)
Lemma int_truediv_self : forall p : positive,
  int_truediv (Z.pos p) (Z.pos p) = Ok (S754_finite false 4503599627370496 (-52)).
Proof.
  intros p. unfold int_truediv. cbn [Z.eqb exact_float SFdiv xorb].
  assert (Hcore : SFdiv_core_binary prec emax (Z.pos p) 0 (Z.pos p) 0
                  = (2 ^ 53, -53, loc_Exact)).
  { unfold SFdiv_core_binary. rewrite !Z.add_0_r.
    rewrite (Z.sub_diag (Zdigits2 (Z.pos p))).
    change (Z.min (fexp prec emax 0) (0 - 0)) with (-53).
    change (0 - 0 - -53) with 53. cbv iota.
    rewrite Z.shiftl_mul_pow2 by lia.
    pose proof (Z_div_mod (Z.pos p * 2 ^ 53) (Z.pos p) ltac:(lia)) as Hdiv.
    destruct (Z.div_eucl (Z.pos p * 2 ^ 53) (Z.pos p)) as [q r].
    destruct Hdiv as [Hq Hr].
    assert (Hq' : q = 2 ^ 53) by nia.
    assert (Hr' : r = 0) by nia.
    subst q r. unfold new_location.
    destruct (Z.even (Z.pos p)); reflexivity. }
  rewrite Hcore. reflexivity.
Qed.

(** The percentage of a count in a total that is at least as large is
    computed without an exception and lies between 0.0 and 100.0. *)
Lemma percent_in_range : forall n t,
  0 <= n <= t ->
  exists p, percent n t = Ok p /\ is_percentage p.
Proof.
  intros n t Hnt. unfold percent.
  destruct t as [|b|b]; [|cbn [Z.eqb negb]|lia].
  - exists (S754_zero false). split; reflexivity.
  - destruct n as [|a|a]; [| |lia].
    + exists (S754_zero false). split; reflexivity.
    + unfold int_truediv. cbn [Z.eqb].
      destruct (SFdiv_le a b ltac:(lia)) as [Hz | (m & e & Hf & He & Hm)];
        cbv zeta in *.
      * rewrite Hz. exists (S754_zero false). split; reflexivity.
      * rewrite Hf. cbn [bind].
        destruct (SFmul_hundred_le m e He Hm)
          as [Hz | (m' & e' & Hf' & He' & Hm')]; cbv zeta in *.
        -- rewrite Hz. exists (S754_zero false). split; reflexivity.
        -- rewrite Hf'. eexists. split; [reflexivity|]. cbn. auto.
Qed.

(** X7: the summary [analyze] returns carries a percentage between 0.0 and
    100.0, never a NaN, an infinity or a negative number: it is exactly
    100.0 when every record is stale and exactly 0.0 when none is. *)
Theorem analyze_percent_range :
  forall fromisoformat clock session base_url space_key T limit script s,
    analyze fromisoformat clock session base_url space_key T limit script
    = Returns s ->
    is_percentage (percent_stale s) /\
    (stale s = total s -> total s <> 0 -> percent_stale s = hundred) /\
    (stale s = 0 -> percent_stale s = S754_zero false).
Proof.
  intros fromisoformat clock session base_url space_key T limit script s H.
  unfold analyze in H.
  destruct (timedelta_days T) as [threshold|e]; [|discriminate].
  destruct (iterate_pages session base_url space_key limit script)
    as [evs st].
  destruct (consume fromisoformat (datetime_now clock) threshold (0, 0) evs)
    as [[t n]|e] eqn:Hloop; [|discriminate].
  destruct st; try discriminate.
  destruct (percent n t) as [p|e] eqn:Hp; [|discriminate].
  inversion H; subst s; clear H. cbn [total stale percent_stale].
  apply consume_counts in Hloop.
  split; [|split].
  - destruct (percent_in_range n t ltac:(lia)) as (p' & Hp' & Hrange).
    congruence.
  - intros Heq Hne. subst n. destruct t as [|b|b]; try lia.
    unfold percent in Hp. cbn [Z.eqb negb] in Hp.
    rewrite int_truediv_self in Hp. cbn [bind] in Hp.
    inversion Hp. reflexivity.
  - intros Heq. subst n. destruct t as [|b|b]; try lia;
      cbn in Hp; congruence.
Qed.

Lemma analyze_percent_range_witness :
  let s := {| total := 5; stale := 5; percent_stale := hundred |} in
  is_percentage (percent_stale s) /\
  (stale s = total s -> total s <> 0 -> percent_stale s = hundred) /\
  (stale s = 0 -> percent_stale s = S754_zero false).
Proof.
  intros s.
  exact (analyze_percent_range Iso.fromisoformat clock_200_days_later
           new_session "https://wiki.example.com/" (Some "ENG") 90 2
           three_pages s eq_refl).
Defined.

(** ** Scans *)

(** Without a truthy ["version"] that is not a dictionary,
    [get_last_modified] raises nothing. *)
Lemma get_last_modified_ok : forall fromisoformat d,
  truthy (dict_get d "version" VNone) = false \/
  (exists v, dict_get d "version" VNone = VDict v) ->
  exists r, get_last_modified fromisoformat (VDict d) = Ok r.
Proof.
  intros fromisoformat d H. unfold get_last_modified. cbn [py_get bind].
  assert (Hv : exists v, py_or (dict_get d "version" VNone) (VDict [])
                         = VDict v).
  { destruct H as [Hf | (v & Hv)].
    - unfold py_or. rewrite Hf. eauto.
    - rewrite Hv. unfold py_or. destruct (truthy (VDict v)); eauto. }
  destruct Hv as [v ->]. cbn [py_get bind].
  destruct (truthy (dict_get v "when" VNone)); eauto.
Qed.

(** At a UTC clock a record whose timestamp can be looked up is counted
    without an exception. *)
Lemma count_item_ok : forall fromisoformat clock threshold c item r,
  get_last_modified fromisoformat item = Ok r ->
  exists c', count_item fromisoformat (datetime_now clock) threshold c item
             = Ok c'.
Proof.
  intros fromisoformat clock threshold [t n] item r Hr.
  unfold count_item. rewrite Hr. cbn [bind].
  destruct r as [lm|]; [|eauto].
  rewrite older_than_instant. cbn [bind].
  destruct (clock - instant lm >? threshold); eauto.
Qed.

(** X8: [analyze] returns a summary whenever the threshold is one
    [datetime.timedelta] accepts, the paginator stops by itself and every
    record it yielded is a dictionary whose ["version"] is absent, falsy or
    a dictionary: neither a timestamp nor the division can make it
    raise. *)
Theorem analyze_returns_on_finished_scan :
  forall fromisoformat clock session base_url space_key T limit script evs,
    Z.abs T <= 999999999 ->
    iterate_pages session base_url space_key limit script = (evs, Exhausted) ->
    Forall (fun item =>
              exists d, item = VDict d /\
                (truthy (dict_get d "version" VNone) = false \/
                 exists v, dict_get d "version" VNone = VDict v))
      (items_of evs) ->
    exists s,
      analyze fromisoformat clock session base_url space_key T limit script
      = Returns s /\
      total s = Z.of_nat (List.length (items_of evs)).
Proof.
  intros fromisoformat clock session base_url space_key T limit script evs
         HT Hrun Hitems.
  unfold analyze, timedelta_days. apply Z.leb_le in HT. rewrite HT, Hrun.
  assert (Hloop : forall c, exists c',
             consume fromisoformat (datetime_now clock) (T * us_per_day) c evs
             = Ok c').
  { clear Hrun. induction evs as [|[r|item] evs IH]; intros c.
    - eexists; reflexivity.
    - cbn [consume]. apply IH. exact Hitems.
    - cbn [consume items_of] in *. inversion Hitems as [|? ? Hitem Hrest]; subst.
      destruct Hitem as (d & -> & Hd).
      destruct (get_last_modified_ok fromisoformat d Hd) as [r Hr].
      destruct (count_item_ok fromisoformat clock (T * us_per_day) c _ r Hr)
        as [c' Hc'].
      rewrite Hc'. cbn [bind]. apply IH. exact Hrest. }
  destruct (Hloop (0, 0)) as [[t n] Hc]. rewrite Hc.
  pose proof (consume_counts _ _ _ _ _ _ _ _ Hc) as [Ht Hn].
  destruct (percent_in_range n t ltac:(lia)) as (p & Hp & _).
  rewrite Hp. eexists. split; [reflexivity|]. cbn [total]. lia.
Qed.

Lemma analyze_returns_on_finished_scan_witness :
  exists s,
    analyze Iso.fromisoformat clock_200_days_later new_session
      "https://wiki.example.com" None 90 2
      (serve [[record_at 1 "2024-01-01T00:00:00Z"; VDict [("id", VInt 2)]];
              [VDict [("version", VNone)]]])
    = Returns s /\
    total s = 3.
Proof.
  refine (analyze_returns_on_finished_scan Iso.fromisoformat
            clock_200_days_later new_session "https://wiki.example.com" None
            90 2
            (serve [[record_at 1 "2024-01-01T00:00:00Z";
                     VDict [("id", VInt 2)]];
                    [VDict [("version", VNone)]]])
            _ _ eq_refl _).
  - cbn. lia.
  - cbn. repeat constructor.
    + eexists. split; [reflexivity|]. right. eexists. reflexivity.
    + eexists. split; [reflexivity|]. left. reflexivity.
    + eexists. split; [reflexivity|]. left. reflexivity.
Defined.

(** X9: a summary is returned only for a scan that ran to its end: the
    paginator left its loop by [break], and no request that fails was ever
    issued. *)
Theorem analyze_summary_means_complete_scan :
  forall fromisoformat clock session base_url space_key T limit script s,
    analyze fromisoformat clock session base_url space_key T limit script
    = Returns s ->
    let run := iterate_pages session base_url space_key limit script in
    snd run = Exhausted /\
    forall k e, nth_error script k = Some (Fails e) ->
                (List.length (requests_of (fst run)) <= k)%nat.
Proof.
  intros fromisoformat clock session base_url space_key T limit script s H
         run.
  assert (Hst : snd run = Exhausted).
  { subst run. unfold analyze in H.
    destruct (timedelta_days T) as [threshold|e]; [|discriminate].
    destruct (iterate_pages session base_url space_key limit script)
      as [evs st].
    destruct (consume fromisoformat (datetime_now clock) threshold (0, 0) evs)
      as [[t n]|e]; [|discriminate].
    destruct st; try discriminate. reflexivity. }
  split; [exact Hst|].
  intros k e Hk. subst run. unfold iterate_pages in *.
  destruct (paginate_stops_at_failure script session
              (rstrip "/" base_url ++ "/rest/api/content") space_key limit
              (VInt 0) k e Hk) as [Hle Hraise].
  destruct (Nat.eq_dec
              (List.length
                 (requests_of
                    (fst (paginate session
                            (rstrip "/" base_url ++ "/rest/api/content")
                            space_key limit (VInt 0) script)))) (S k))
    as [Heq|Hne]; [|lia].
  apply Hraise in Heq. congruence.
Qed.

Lemma analyze_summary_means_complete_scan_witness :
  let run :=
    iterate_pages new_session "https://wiki.example.com/" (Some "ENG") 2
      (three_pages ++ [Fails HTTPError]) in
  snd run = Exhausted /\
  forall k e, nth_error (three_pages ++ [Fails HTTPError]) k = Some (Fails e) ->
              (List.length (requests_of (fst run)) <= k)%nat.
Proof.
  exact (analyze_summary_means_complete_scan Iso.fromisoformat
           clock_200_days_later new_session "https://wiki.example.com/"
           (Some "ENG") 90 2 (three_pages ++ [Fails HTTPError])
           {| total := 5; stale := 5; percent_stale := hundred |} eq_refl).
Defined.

(** ** Thresholds and time zones *)

(** Whether a record can be counted does not depend on the threshold, and a
    larger threshold does not make it stale. *)
Lemma count_item_threshold :
  forall fromisoformat now th1 th2 t n1 n2 item t1 n1',
    th1 <= th2 -> n2 <= n1 ->
    count_item fromisoformat now th1 (t, n1) item = Ok (t1, n1') ->
    exists n2',
      count_item fromisoformat now th2 (t, n2) item = Ok (t1, n2') /\
      n2' <= n1'.
Proof.
  intros fromisoformat now th1 th2 t n1 n2 item t1 n1' Hth Hn H.
  unfold count_item in *.
  destruct (get_last_modified fromisoformat item) as [[lm|]|e];
    cbn [bind] in *; try discriminate.
  - unfold older_than in *.
    destruct (datetime_sub now _) as [age|e]; cbn [bind] in *;
      [|discriminate].
    destruct (age >? th1) eqn:H1; destruct (age >? th2) eqn:H2;
      inversion H; subst; eexists; (split; [reflexivity|]); lia.
  - inversion H; subst. eexists. split; [reflexivity|]. lia.
Qed.

Lemma consume_threshold :
  forall fromisoformat now th1 th2 evs t n1 n2 t1 n1',
    th1 <= th2 -> n2 <= n1 ->
    consume fromisoformat now th1 (t, n1) evs = Ok (t1, n1') ->
    exists n2',
      consume fromisoformat now th2 (t, n2) evs = Ok (t1, n2') /\
      n2' <= n1'.
Proof.
  intros fromisoformat now th1 th2.
  induction evs as [|[r|item] evs IH]; intros t n1 n2 t1 n1' Hth Hn H.
  - cbn in *. inversion H; subst. eauto.
  - cbn [consume] in *. eapply IH; eauto.
  - cbn [consume] in *.
    destruct (count_item fromisoformat now th1 (t, n1) item)
      as [[t' n']|e] eqn:Hitem; cbn [bind] in H; [|discriminate].
    destruct (count_item_threshold _ _ _ _ _ _ n2 _ _ _ Hth Hn Hitem)
      as (n2' & Hitem2 & Hle).
    rewrite Hitem2. cbn [bind]. eapply IH; eauto.
Qed.

(** X10: raising the threshold never yields more stale records.  When
    [analyze] returns a summary for a threshold, it returns one for every
    larger threshold [datetime.timedelta] accepts, with the same total and
    at most as many stale records. *)
Theorem analyze_stale_antitone_in_threshold :
  forall fromisoformat clock session base_url space_key T1 T2 limit script s1,
    T1 <= T2 -> Z.abs T2 <= 999999999 ->
    analyze fromisoformat clock session base_url space_key T1 limit script
    = Returns s1 ->
    exists s2,
      analyze fromisoformat clock session base_url space_key T2 limit script
      = Returns s2 /\
      total s2 = total s1 /\ stale s2 <= stale s1.
Proof.
  intros fromisoformat clock session base_url space_key T1 T2 limit script s1
         HT HT2 H.
  unfold analyze in *.
  destruct (timedelta_days T1) as [th1|e] eqn:Hth1; [|discriminate].
  apply timedelta_days_ok in Hth1. subst th1.
  unfold timedelta_days. apply Z.leb_le in HT2. rewrite HT2.
  destruct (iterate_pages session base_url space_key limit script)
    as [evs st].
  destruct (consume fromisoformat (datetime_now clock) (T1 * us_per_day)
              (0, 0) evs) as [[t n1]|e] eqn:Hloop; [|discriminate].
  destruct st; try discriminate.
  destruct (percent n1 t) as [p1|e]; [|discriminate].
  inversion H; subst s1; clear H.
  assert (Hth : T1 * us_per_day <= T2 * us_per_day)
    by (unfold us_per_day, us_per_second; lia).
  destruct (consume_threshold _ _ _ _ _ _ _ 0 _ _ Hth (Z.le_refl 0) Hloop)
    as (n2 & Hloop2 & Hle).
  rewrite Hloop2.
  pose proof (consume_counts _ _ _ _ _ _ _ _ Hloop2) as [Ht Hn].
  destruct (percent_in_range n2 t ltac:(lia)) as (p2 & Hp2 & _).
  rewrite Hp2. eexists. split; [reflexivity|]. cbn [total stale]. lia.
Qed.

Lemma analyze_stale_antitone_in_threshold_witness :
  exists s2,
    analyze Iso.fromisoformat clock_200_days_later new_session
      "https://wiki.example.com/" (Some "ENG") 365 2 three_pages
    = Returns s2 /\
    total s2 = 5 /\ stale s2 <= 5.
Proof.
  refine (analyze_stale_antitone_in_threshold Iso.fromisoformat
            clock_200_days_later new_session "https://wiki.example.com/"
            (Some "ENG") 90 365 2 three_pages
            {| total := 5; stale := 5; percent_stale := hundred |}
            _ _ eq_refl); cbn; lia.
Defined.

(** X11: the analyzer compares instants, not wall clocks.  A timestamp
    written with a UTC offset [o] is as old as the timestamp without offset
    that reads [o] less on the wall clock, and as the one that reads the
    same instant at offset zero. *)
Theorem older_than_ignores_zone :
  forall clock threshold w o,
    older_than (datetime_now clock) threshold
      {| wall := w + o; tzinfo := Some o |}
    = older_than (datetime_now clock) threshold
        {| wall := w; tzinfo := None |} /\
    older_than (datetime_now clock) threshold
      {| wall := w + o; tzinfo := Some o |}
    = older_than (datetime_now clock) threshold
        {| wall := w; tzinfo := Some utc |}.
Proof.
  intros clock threshold w o. rewrite !older_than_instant.
  unfold instant, utc. cbn [tzinfo wall].
  split; do 3 f_equal; lia.
Qed.

(** X12: when no record of a scan has a timestamp that can be read, every
    record is stale: the summary has [stale = total]. *)
Theorem analyze_without_timestamps_all_stale :
  forall fromisoformat clock session base_url space_key T limit script s,
    analyze fromisoformat clock session base_url space_key T limit script
    = Returns s ->
    Forall (fun item => get_last_modified fromisoformat item = Ok None)
      (items_of
         (fst (iterate_pages session base_url space_key limit script))) ->
    stale s = total s.
Proof.
  intros fromisoformat clock session base_url space_key T limit script s H
         Hitems.
  unfold analyze in H.
  destruct (timedelta_days T) as [threshold|e]; [|discriminate].
  destruct (iterate_pages session base_url space_key limit script)
    as [evs st]. cbn [fst] in Hitems.
  assert (Hloop : forall t n t' n',
             consume fromisoformat (datetime_now clock) threshold (t, n) evs
             = Ok (t', n') -> n' - n = t' - t).
  { clear H. induction evs as [|[r|item] evs IH]; intros t n t' n' Hc.
    - cbn in Hc. inversion Hc. lia.
    - cbn [consume items_of] in *. eapply IH; eauto.
    - cbn [consume items_of] in *.
      inversion Hitems as [|? ? Hitem Hrest]; subst.
      unfold count_item in Hc. rewrite Hitem in Hc. cbn [bind] in Hc.
      apply IH in Hc; [lia | exact Hrest]. }
  destruct (consume fromisoformat (datetime_now clock) threshold (0, 0) evs)
    as [[t n]|e] eqn:Hc; [|discriminate].
  destruct st; try discriminate.
  destruct (percent n t) as [p|e]; [|discriminate].
  inversion H; subst s; clear H. cbn [total stale].
  apply Hloop in Hc. lia.
Qed.

Lemma analyze_without_timestamps_all_stale_witness :
  let script :=
    serve [[VDict [("id", VInt 1)]; record_at 2 "last week"];
           [VDict [("id", VInt 3); ("version", VDict [])]]] in
  let s := {| total := 3; stale := 3; percent_stale := hundred |} in
  analyze Iso.fromisoformat clock_200_days_later new_session
    "https://wiki.example.com" None 0 2 script = Returns s /\
  stale s = total s.
Proof.
  intros script s. split; [reflexivity|].
  apply (analyze_without_timestamps_all_stale Iso.fromisoformat
           clock_200_days_later new_session "https://wiki.example.com" None
           0 2 script s eq_refl).
  cbn. repeat constructor.
Defined.

(** X13: a threshold beyond 999999999 days in magnitude makes [analyze]
    raise [OverflowError] whatever the server would answer: the duration is
    built before the first request. *)
Theorem analyze_threshold_out_of_range :
  forall fromisoformat clock session base_url space_key T limit script,
    999999999 < Z.abs T ->
    analyze fromisoformat clock session base_url space_key T limit script
    = Raises OverflowError.
Proof.
  intros fromisoformat clock session base_url space_key T limit script HT.
  unfold analyze, timedelta_days.
  apply Z.leb_gt in HT. rewrite HT. reflexivity.
Qed.

Lemma analyze_threshold_out_of_range_witness :
  analyze Iso.fromisoformat clock_200_days_later new_session
    "https://wiki.example.com" None (-1000000000) 50 [Fails HTTPError]
  = Raises OverflowError.
Proof.
  apply analyze_threshold_out_of_range. cbn. lia.
Defined.

(** ** Timestamps written with [Z] *)

Lemma str_app_assoc : forall s t u : string, (s ++ t) ++ u = s ++ (t ++ u).
Proof.
  induction s as [|a s IH]; intros t u; cbn; [reflexivity|].
  rewrite IH. reflexivity.
Qed.

Lemma str_app_length : forall s t : string,
  String.length (s ++ t) = (String.length s + String.length t)%nat.
Proof.
  induction s as [|a s IH]; intros t; cbn; [reflexivity|].
  rewrite IH. reflexivity.
Qed.

(** Replacing one character goes through a string from left to right,
    character by character. *)
Lemma str_replace_char_cons : forall c new a s,
  str_replace (String c EmptyString) new (String a s) =
  (if Ascii.eqb c a then new else String a EmptyString)
  ++ str_replace (String c EmptyString) new s.
Proof.
  intros c new a s. unfold str_replace. cbn [replace_from String.prefix].
  destruct (Ascii.ascii_dec c a) as [->|Hne].
  - rewrite Ascii.eqb_refl.
    destruct s; reflexivity.
  - apply Ascii.eqb_neq in Hne. rewrite Hne.
    destruct (Ascii.ascii_dec c a); [subst; rewrite Ascii.eqb_refl in Hne;
                                     discriminate|].
    reflexivity.
Qed.

Lemma str_replace_char_app : forall c new s t,
  str_replace (String c EmptyString) new (s ++ t) =
  str_replace (String c EmptyString) new s
  ++ str_replace (String c EmptyString) new t.
Proof.
  intros c new. induction s as [|a s IH]; intros t; [reflexivity|].
  cbn [append]. rewrite !str_replace_char_cons, IH, str_app_assoc.
  reflexivity.
Qed.

Lemma str_replace_char_absent : forall c new s,
  ~ In c (chars s) -> str_replace (String c EmptyString) new s = s.
Proof.
  intros c new. induction s as [|a s IH]; intros Hc; [reflexivity|].
  rewrite str_replace_char_cons. cbn [chars In] in Hc.
  destruct (Ascii.eqb c a) eqn:Hca.
  - apply Ascii.eqb_eq in Hca. exfalso. apply Hc. left. congruence.
  - rewrite IH by tauto. reflexivity.
Qed.

(** What [get_last_modified] does with a record whose version carries the
    non-empty string [w] as its timestamp. *)
Lemma get_last_modified_record_at : forall fromisoformat id w,
  w <> EmptyString ->
  get_last_modified fromisoformat (record_at id w)
  = Ok (try_except (fromisoformat (str_replace "Z" "+00:00" w))).
Proof.
  intros fromisoformat id w Hw. destruct w as [|a w]; [congruence|].
  reflexivity.
Qed.

(** X14: a timestamp that ends in [Z] is read as the same timestamp ending
    in [+00:00], whatever the parser makes of it. *)
Theorem get_last_modified_Z_suffix_is_utc :
  forall fromisoformat id s,
    get_last_modified fromisoformat (record_at id (s ++ "Z"))
    = get_last_modified fromisoformat (record_at id (s ++ "+00:00")).
Proof.
  intros fromisoformat id s.
  rewrite !get_last_modified_record_at.
  - change "Z" with (String "Z"%char EmptyString) at 1 3.
    rewrite !str_replace_char_app. reflexivity.
  - destruct s; discriminate.
  - destruct s; discriminate.
Qed.

(** X15: a non-empty timestamp without the letter [Z] is handed to the
    parser as it is: the record has a last-modified date exactly when the
    parser accepts the string, and it is the parser's date. *)
Theorem get_last_modified_without_Z :
  forall fromisoformat id w,
    w <> EmptyString ->
    ~ In "Z"%char (chars w) ->
    get_last_modified fromisoformat (record_at id w)
    = Ok (try_except (fromisoformat w)).
Proof.
  intros fromisoformat id w Hw HZ.
  rewrite get_last_modified_record_at by exact Hw.
  change "Z" with (String "Z"%char EmptyString).
  rewrite str_replace_char_absent by exact HZ. reflexivity.
Qed.

Lemma get_last_modified_without_Z_witness :
  get_last_modified Iso.fromisoformat
    (record_at 4 "2024-01-01T23:00:00+02:00")
  = Ok (try_except (Iso.fromisoformat "2024-01-01T23:00:00+02:00")).
Proof.
  apply get_last_modified_without_Z.
  - discriminate.
  - cbn. intros H.
    repeat (destruct H as [H|H]; [discriminate|]). exact H.
Defined.

(** ** From the config file to the requests *)

(** X16: when the config file holds a mapping, the session [make_session]
    builds from what [load_config] returns has the mapping's [username] and
    [api_token] as its credentials, [None] standing in for a missing one,
    and every request of a scan goes out through that session. *)
Theorem credentials_reach_every_request :
  forall (fs : filesystem) module_dir path d base_url space_key limit script,
    fs (config_path module_dir path) = Document (VDict d) ->
    exists session,
      (cfg <- load_config fs module_dir path ;; make_session cfg)
      = Ok session /\
      auth session
      = Some (dict_get d "username" VNone, dict_get d "api_token" VNone) /\
      Forall (fun r => req_session r = session)
        (requests_of
           (fst (iterate_pages session base_url space_key limit script))).
Proof.
  intros fs module_dir path d base_url space_key limit script Hfile.
  unfold load_config. rewrite Hfile. cbn [bind].
  assert (Hcfg : make_session (py_or (VDict d) (VDict []))
                 = Ok {| auth := Some (dict_get d "username" VNone,
                                       dict_get d "api_token" VNone) |}).
  { destruct d as [|b d]; reflexivity. }
  rewrite Hcfg. eexists. split; [reflexivity|]. split; [reflexivity|].
  unfold iterate_pages. apply paginate_requests_session.
Qed.

Lemma credentials_reach_every_request_witness :
  let fs : filesystem :=
    fun p => if String.eqb p "/etc/checker.yml"
             then Document (VDict [("username", VStr "bot");
                                   ("api_token", VStr "s3cret")])
             else Missing in
  exists session,
    (cfg <- load_config fs "/opt/checker" (Some "/etc/checker.yml") ;;
     make_session cfg) = Ok session /\
    auth session = Some (VStr "bot", VStr "s3cret") /\
    Forall (fun r => req_session r = session)
      (requests_of
         (fst (iterate_pages session "https://wiki.example.com" None 2
                 three_pages))).
Proof.
  intros fs.
  exact (credentials_reach_every_request fs "/opt/checker"
           (Some "/etc/checker.yml")
           [("username", VStr "bot"); ("api_token", VStr "s3cret")]
           "https://wiki.example.com" None 2 three_pages eq_refl).
Defined.

(** X17: a config file whose document is truthy and not a mapping (a
    non-empty list, a string, a number) ends [main] with an uncaught
    [AttributeError] and nothing printed, whatever the server would
    answer. *)
Theorem main_config_not_a_mapping :
  forall fromisoformat str_of_exc (fs : filesystem) module_dir clock script
         args doc,
    fs (config_path module_dir (args_config args)) = Document doc ->
    truthy doc = true ->
    (forall d, doc <> VDict d) ->
    main fromisoformat str_of_exc fs module_dir clock script args
    = ([], Uncaught AttributeError).
Proof.
  intros fromisoformat str_of_exc fs module_dir clock script args doc
         Hfile Hdoc Hnot.
  unfold main, load_config. rewrite Hfile. unfold py_or. rewrite Hdoc.
  destruct doc; try reflexivity. exfalso. eapply Hnot. reflexivity.
Qed.

Lemma main_config_not_a_mapping_witness :
  main Iso.fromisoformat (fun _ => "error")
    (fun p => if String.eqb p "/opt/checker/config.yml"
              then Document (VStr "username: bot") else Missing)
    "/opt/checker" clock_200_days_later three_pages
    {| args_config := None; args_base_url := "https://wiki.example.com";
       args_space := None; args_threshold := 90; args_limit := 50 |}
  = ([], Uncaught AttributeError).
Proof.
  apply (main_config_not_a_mapping Iso.fromisoformat (fun _ => "error")
           (fun p => if String.eqb p "/opt/checker/config.yml"
                     then Document (VStr "username: bot") else Missing)
           "/opt/checker" clock_200_days_later three_pages _
           (VStr "username: bot")).
  - reflexivity.
  - reflexivity.
  - discriminate.
Defined.

(** ** The command line *)

(** From the parsed arguments on, what is printed goes with how the call
    ends. *)
Lemma main_parsed_output_and_ending :
  forall fromisoformat str_of_exc fs module_dir clock script args,
    let '(out, e) :=
      main fromisoformat str_of_exc fs module_dir clock script args in
    match e with
    | Completed => List.length out = 3%nat
    | SysExit code => code = 1 /\ List.length out = 1%nat
    | Uncaught exc =>
        out = [] /\ exc <> HTTPError /\ exc <> RequestException
    | Waiting => out = []
    end.
Proof.
  intros fromisoformat str_of_exc fs module_dir clock script args.
  unfold main.
  destruct (load_config fs module_dir (args_config args)) as [cfg|e] eqn:Hcfg.
  - destruct (make_session cfg) as [session|e] eqn:Hs.
    + destruct (analyze fromisoformat clock session (args_base_url args)
                  (args_space args) (args_threshold args) (args_limit args)
                  script) as [s|e|].
      * reflexivity.
      * destruct e; cbn; repeat split; discriminate.
      * reflexivity.
    + unfold make_session in Hs.
      destruct cfg; cbn in Hs; inversion Hs; repeat split; discriminate.
  - unfold load_config in Hcfg.
    destruct (fs (config_path module_dir (args_config args)));
      inversion Hcfg; repeat split; discriminate.
Qed.

(** X18: what [main] prints goes with how it ends.  When the arguments do
    not parse, it ends as the parser's [sys.exit] says, with what the parser
    printed and nothing else.  Once they have parsed, it prints three lines
    exactly when it returns, one line when it leaves through [sys.exit],
    then always with status 1, and nothing when an exception escapes or a
    response never comes; an [HTTPError] or [RequestException] never
    escapes. *)
Theorem main_argv_output_and_ending :
  forall fromisoformat str_of_exc parse_args fs module_dir clock script argv,
    let '(out, e) :=
      main_argv fromisoformat str_of_exc parse_args fs module_dir clock
        script argv in
    match parse_args argv with
    | ParserExit code printed => out = printed /\ e = SysExit code
    | Parsed args =>
        (out, e)
        = main fromisoformat str_of_exc fs module_dir clock script args /\
        match e with
        | Completed => List.length out = 3%nat
        | SysExit code => code = 1 /\ List.length out = 1%nat
        | Uncaught exc =>
            out = [] /\ exc <> HTTPError /\ exc <> RequestException
        | Waiting => out = []
        end
    end.
Proof.
  intros fromisoformat str_of_exc parse_args fs module_dir clock script argv.
  unfold main_argv.
  destruct (parse_args argv) as [args|code printed].
  - pose proof (main_parsed_output_and_ending fromisoformat str_of_exc fs
                  module_dir clock script args) as H.
    destruct (main fromisoformat str_of_exc fs module_dir clock script args)
      as [out e].
    split; [reflexivity | exact H].
  - split; reflexivity.
Qed.

(** The percentage of a returned summary is the one of its counts, and
    its counts are in order. *)
Lemma analyze_returns_percent :
  forall fromisoformat clock session base_url space_key T limit script s,
    analyze fromisoformat clock session base_url space_key T limit script
    = Returns s ->
    percent (stale s) (total s) = Ok (percent_stale s) /\
    0 <= stale s <= total s.
Proof.
  intros fromisoformat clock session base_url space_key T limit script s H.
  unfold analyze in H.
  destruct (timedelta_days T) as [threshold|e]; [|discriminate].
  destruct (iterate_pages session base_url space_key limit script)
    as [evs st].
  destruct (consume fromisoformat (datetime_now clock) threshold (0, 0) evs)
    as [[t n]|e] eqn:Hloop; [|discriminate].
  destruct st; try discriminate.
  destruct (percent n t) as [p|e] eqn:Hp; [|discriminate].
  inversion H; subst s; clear H. cbn [total stale percent_stale].
  apply consume_counts in Hloop. split; [exact Hp | lia].
Qed.

(** X19: the lines of a finished scan.  [main] returns only when the scan
    returned a summary; it prints its total, its stale count after the
    threshold, and its percentage with one decimal: [100.0%] when every
    record is stale, [0.0%] when none is. *)
Theorem main_prints_summary :
  forall fromisoformat str_of_exc fs module_dir clock script args out,
    main fromisoformat str_of_exc fs module_dir clock script args
    = (out, Completed) ->
    exists cfg session s,
      load_config fs module_dir (args_config args) = Ok cfg /\
      make_session cfg = Ok session /\
      analyze fromisoformat clock session (args_base_url args)
        (args_space args) (args_threshold args) (args_limit args) script
      = Returns s /\
      out = ["Total pages: " ++ str_of_int (total s);
             "Stale pages (>" ++ str_of_int (args_threshold args)
               ++ " days): " ++ str_of_int (stale s);
             "Percent stale: " ++ format_1f (percent_stale s) ++ "%"] /\
      (stale s = total s -> total s <> 0 ->
       nth_error out 2 = Some "Percent stale: 100.0%") /\
      (stale s = 0 -> nth_error out 2 = Some "Percent stale: 0.0%").
Proof.
  intros fromisoformat str_of_exc fs module_dir clock script args out H.
  unfold main in H.
  destruct (load_config fs module_dir (args_config args)) as [cfg|e] eqn:Hcfg;
    [|discriminate].
  destruct (make_session cfg) as [session|e] eqn:Hsession; [|discriminate].
  destruct (analyze fromisoformat clock session (args_base_url args)
              (args_space args) (args_threshold args) (args_limit args)
              script) as [s|e|] eqn:Hrun.
  - inversion H; subst out; clear H.
    exists cfg, session, s.
    split; [reflexivity|]. split; [exact Hsession|].
    split; [exact Hrun|]. split; [reflexivity|]. split.
    + intros Heq Hne. cbn [nth_error].
      destruct (analyze_returns_percent _ _ _ _ _ _ _ _ _ Hrun) as [Hp Hle].
      rewrite Heq in Hp. destruct (total s) as [|b|b]; try lia.
      unfold percent in Hp. cbn [Z.eqb negb] in Hp.
      rewrite int_truediv_self in Hp. cbn [bind] in Hp.
      inversion Hp as [Hp']. reflexivity.
    + intros Heq. cbn [nth_error].
      destruct (analyze_returns_percent _ _ _ _ _ _ _ _ _ Hrun) as [Hp Hle].
      rewrite Heq in Hp.
      destruct (total s) as [|b|b]; try lia; cbn in Hp;
        inversion Hp as [Hp']; reflexivity.
  - destruct e; discriminate.
  - discriminate.
Qed.

Lemma main_prints_summary_witness :
  main Iso.fromisoformat (fun _ => "error") (fun _ => Missing) "/opt/checker"
    clock_200_days_later three_pages
    {| args_config := None; args_base_url := "https://wiki.example.com/";
       args_space := Some "ENG"; args_threshold := 90; args_limit := 2 |}
  = (["Total pages: 5"; "Stale pages (>90 days): 5";
      "Percent stale: 100.0%"], Completed) /\
  exists cfg session s,
    load_config (fun _ => Missing) "/opt/checker" None = Ok cfg /\
    make_session cfg = Ok session /\
    analyze Iso.fromisoformat clock_200_days_later session
      "https://wiki.example.com/" (Some "ENG") 90 2 three_pages = Returns s /\
    total s = 5.
Proof.
  split; [reflexivity|].
  destruct (main_prints_summary Iso.fromisoformat (fun _ => "error")
              (fun _ => Missing) "/opt/checker" clock_200_days_later
              three_pages
              {| args_config := None;
                 args_base_url := "https://wiki.example.com/";
                 args_space := Some "ENG"; args_threshold := 90;
                 args_limit := 2 |}
              _ eq_refl)
    as (cfg & session & s & Hcfg & Hs & Hrun & _).
  exists cfg, session, s. repeat split; auto.
  cbn in Hcfg. inversion Hcfg; subst cfg.
  cbn in Hs. inversion Hs; subst session.
  cbn in Hrun. inversion Hrun. reflexivity.
Defined.

(** ** A server without sizes and links *)

Lemma page_body_plain_full : forall limit s l,
  l <> [] -> limit <= Z.of_nat (List.length l) ->
  page_body limit (VInt s) (VDict [("results", VList l)])
  = (l, Ok (Some (VInt (s + Z.of_nat (List.length l))))).
Proof.
  intros limit s l Hne Hlen. destruct l as [|item l]; [congruence|].
  unfold page_body, next_start.
  cbn [extract_results py_get bind dict_get lookup String.eqb Ascii.eqb
       Bool.eqb truthy negb List.length Nat.eqb is_None py_iter py_len
       py_add].
  apply Z.ltb_ge in Hlen. cbn [List.length] in Hlen. rewrite Hlen.
  reflexivity.
Qed.

Lemma page_body_plain_short : forall limit s l,
  Z.of_nat (List.length l) < limit ->
  page_body limit (VInt s) (VDict [("results", VList l)]) = (l, Ok None).
Proof.
  intros limit s l Hlen. destruct l as [|item l]; [reflexivity|].
  unfold page_body, next_start.
  cbn [extract_results py_get bind dict_get lookup String.eqb Ascii.eqb
       Bool.eqb truthy negb List.length Nat.eqb is_None py_iter py_len
       py_add].
  apply Z.ltb_lt in Hlen. cbn [List.length] in Hlen. rewrite Hlen.
  reflexivity.
Qed.

(** X20: the paginator needs neither sizes nor next links.  Against a
    server that returns only its records, in full pages followed by one
    that is shorter than the page size (possibly empty), it yields every
    record once and in order, advancing by the number of records it
    received, and stops at the short page. *)
Theorem iterate_pages_plain_pages :
  forall pages last_page session base_url space_key limit,
    Forall (fun l => l <> [] /\ limit <= Z.of_nat (List.length l)) pages ->
    Z.of_nat (List.length last_page) < limit ->
    let run :=
      iterate_pages session base_url space_key limit
        (map plain_page (pages ++ [last_page])) in
    snd run = Exhausted /\
    items_of (fst run) = (List.concat pages ++ last_page)%list /\
    map req_start (requests_of (fst run))
    = map VInt (offsets 0 (pages ++ [last_page])).
Proof.
  intros pages last_page session base_url space_key limit Hfull Hlast run.
  subst run. unfold iterate_pages.
  generalize (rstrip "/" base_url ++ "/rest/api/content") as api.
  generalize 0 as s.
  induction Hfull as [|l pages [Hne Hlen] Hfull IH]; intros s api.
  - cbn [app map].
    change (plain_page last_page)
      with (Json (VDict [("results", VList last_page)])).
    rewrite paginate_json.
    rewrite (page_body_plain_short limit s last_page Hlast).
    cbn [fst snd requests_of items_of List.concat offsets map app].
    rewrite requests_of_yields, items_of_yields.
    repeat split.
  - cbn [app map].
    change (plain_page l) with (Json (VDict [("results", VList l)])).
    rewrite paginate_json, (page_body_plain_full limit s l Hne Hlen).
    cbn [fst snd requests_of items_of].
    rewrite requests_of_app, items_of_app, requests_of_yields,
      items_of_yields.
    destruct (IH (s + Z.of_nat (List.length l)) api) as (Hst & Hitems & Hreq).
    cbn [app List.concat]. repeat split.
    + exact Hst.
    + rewrite Hitems, app_assoc. reflexivity.
    + cbn [map offsets]. rewrite Hreq. reflexivity.
Qed.

Lemma iterate_pages_plain_pages_witness :
  let run :=
    iterate_pages new_session "https://wiki.example.com" None 2
      (map plain_page ([[VInt 1; VInt 2]; [VInt 3; VInt 4]] ++ [[]])) in
  snd run = Exhausted /\
  items_of (fst run) = [VInt 1; VInt 2; VInt 3; VInt 4] /\
  map req_start (requests_of (fst run)) = [VInt 0; VInt 2; VInt 4].
Proof.
  apply (iterate_pages_plain_pages [[VInt 1; VInt 2]; [VInt 3; VInt 4]] []
           new_session "https://wiki.example.com" None 2).
  - repeat constructor; try discriminate; cbn; lia.
  - cbn. lia.
Defined.

(** ** The passing of time *)

Lemma count_item_clock :
  forall fromisoformat clock1 clock2 threshold t n1 n2 item t1 n1',
    clock1 <= clock2 -> n1 <= n2 ->
    count_item fromisoformat (datetime_now clock1) threshold (t, n1) item
    = Ok (t1, n1') ->
    exists n2',
      count_item fromisoformat (datetime_now clock2) threshold (t, n2) item
      = Ok (t1, n2') /\
      n1' <= n2'.
Proof.
  intros fromisoformat clock1 clock2 threshold t n1 n2 item t1 n1' Hc Hn H.
  unfold count_item in *.
  destruct (get_last_modified fromisoformat item) as [[lm|]|e];
    cbn [bind] in *; try discriminate.
  - rewrite older_than_instant in *. cbn [bind] in *.
    destruct (clock1 - instant lm >? threshold) eqn:H1;
      destruct (clock2 - instant lm >? threshold) eqn:H2;
      inversion H; subst; eexists; (split; [reflexivity|]); lia.
  - inversion H; subst. eexists. split; [reflexivity|]. lia.
Qed.

Lemma consume_clock :
  forall fromisoformat clock1 clock2 threshold evs t n1 n2 t1 n1',
    clock1 <= clock2 -> n1 <= n2 ->
    consume fromisoformat (datetime_now clock1) threshold (t, n1) evs
    = Ok (t1, n1') ->
    exists n2',
      consume fromisoformat (datetime_now clock2) threshold (t, n2) evs
      = Ok (t1, n2') /\
      n1' <= n2'.
Proof.
  intros fromisoformat clock1 clock2 threshold.
  induction evs as [|[r|item] evs IH]; intros t n1 n2 t1 n1' Hc Hn H.
  - cbn in *. inversion H; subst. eauto.
  - cbn [consume] in *. eapply IH; eauto.
  - cbn [consume] in *.
    destruct (count_item fromisoformat (datetime_now clock1) threshold
                (t, n1) item) as [[t' n']|e] eqn:Hitem;
      cbn [bind] in H; [|discriminate].
    destruct (count_item_clock _ _ _ _ _ _ n2 _ _ _ Hc Hn Hitem)
      as (n2' & Hitem2 & Hle).
    rewrite Hitem2. cbn [bind]. eapply IH; eauto.
Qed.

(** X21: records do not get fresher by waiting.  A scan of the same
    responses at a later time returns a summary whenever the earlier one
    did, with the same total and at least as many stale records. *)
Theorem analyze_stale_monotone_in_time :
  forall fromisoformat clock1 clock2 session base_url space_key T limit
         script s1,
    clock1 <= clock2 ->
    analyze fromisoformat clock1 session base_url space_key T limit script
    = Returns s1 ->
    exists s2,
      analyze fromisoformat clock2 session base_url space_key T limit script
      = Returns s2 /\
      total s2 = total s1 /\ stale s1 <= stale s2.
Proof.
  intros fromisoformat clock1 clock2 session base_url space_key T limit
         script s1 Hc H.
  unfold analyze in *.
  destruct (timedelta_days T) as [threshold|e]; [|discriminate].
  destruct (iterate_pages session base_url space_key limit script)
    as [evs st].
  destruct (consume fromisoformat (datetime_now clock1) threshold (0, 0) evs)
    as [[t n1]|e] eqn:Hloop; [|discriminate].
  destruct st; try discriminate.
  destruct (percent n1 t) as [p1|e]; [|discriminate].
  inversion H; subst s1; clear H.
  destruct (consume_clock _ _ _ _ _ _ _ 0 _ _ Hc (Z.le_refl 0) Hloop)
    as (n2 & Hloop2 & Hle).
  rewrite Hloop2.
  pose proof (consume_counts _ _ _ _ _ _ _ _ Hloop2) as [Ht Hn].
  destruct (percent_in_range n2 t ltac:(lia)) as (p2 & Hp2 & _).
  rewrite Hp2. eexists. split; [reflexivity|]. cbn [total stale]. lia.
Qed.

Lemma analyze_stale_monotone_in_time_witness :
  exists s2,
    analyze Iso.fromisoformat (clock_200_days_later + us_per_day) new_session
      "https://wiki.example.com/" (Some "ENG") 90 2 three_pages
    = Returns s2 /\
    total s2 = 5 /\ 5 <= stale s2.
Proof.
  refine (analyze_stale_monotone_in_time Iso.fromisoformat
            clock_200_days_later (clock_200_days_later + us_per_day)
            new_session "https://wiki.example.com/" (Some "ENG") 90 2
            three_pages
            {| total := 5; stale := 5; percent_stale := hundred |}
            _ eq_refl).
  cbn. lia.
Defined.

(** ** Transport failures at the command line *)

(** X22: when the first request of the scan fails, [main] prints a single
    line and leaves with status 1: [HTTP error:] and the text of the
    exception for an [HTTPError], [Network error:] and the text for any
    other [RequestException].  No summary line is printed. *)
Theorem main_first_request_fails :
  forall fromisoformat str_of_exc (fs : filesystem) module_dir clock rest
         args d,
    Z.abs (args_threshold args) <= 999999999 ->
    load_config fs module_dir (args_config args) = Ok (VDict d) ->
    main fromisoformat str_of_exc fs module_dir clock
      (Fails HTTPError :: rest) args
    = (["HTTP error: " ++ str_of_exc HTTPError], SysExit 1) /\
    main fromisoformat str_of_exc fs module_dir clock
      (Fails RequestException :: rest) args
    = (["Network error: " ++ str_of_exc RequestException], SysExit 1).
Proof.
  intros fromisoformat str_of_exc fs module_dir clock rest args d HT Hcfg.
  unfold main. rewrite Hcfg, make_session_auth_pair.
  unfold analyze, timedelta_days. apply Z.leb_le in HT. rewrite HT.
  split; reflexivity.
Qed.

Lemma main_first_request_fails_witness :
  main Iso.fromisoformat (fun _ => "503 Server Error") (fun _ => Missing)
    "/opt/checker" clock_200_days_later (Fails HTTPError :: three_pages)
    {| args_config := None; args_base_url := "https://wiki.example.com";
       args_space := None; args_threshold := 90; args_limit := 50 |}
  = (["HTTP error: 503 Server Error"], SysExit 1).
Proof.
  refine (proj1
            (main_first_request_fails Iso.fromisoformat
               (fun _ => "503 Server Error") (fun _ => Missing)
               "/opt/checker" clock_200_days_later three_pages
               {| args_config := None;
                  args_base_url := "https://wiki.example.com";
                  args_space := None; args_threshold := 90;
                  args_limit := 50 |}
               [] _ eq_refl)).
  cbn. lia.
Defined.
